(** * pond-cli: the API client and the command-line shell

    A shallow embedding of [pond_cli/client.py] and [pond_cli/cli.py].

    - Python [str] values are lists of Unicode code points.
    - Decoded JSON documents (and the request bodies the client builds) are
      values of [json]; a Python [dict] is an association list, in insertion
      order.
    - The commands run in a small state-and-exception monad.  The state
      records what the process did: the arguments of every [rprint] call, the
      HTTP requests handed to [requests], and how many times [PondClient] was
      instantiated.  The rendering of rich markup on the terminal is outside
      the model: the console is the sequence of [rprint] calls.
    - The process environment, standard input and the remote service are the
      read-only [world]. *)

From Stdlib Require Import List ZArith NArith Bool Lia String Ascii.
From Stdlib Require Import DecimalString.
From Stdlib Require Import Floats.SpecFloat.
Import ListNotations.

Set Implicit Arguments.
Open Scope Z_scope.

(** ** Strings *)

Module Str.

Definition char := N.
Definition str := list char.

(** An ASCII literal as a Python string. *)
Definition lit (s : string) : str :=
  map N_of_ascii (list_ascii_of_string s).

Fixpoint eqb (s t : str) : bool :=
  match s, t with
  | [], [] => true
  | c :: s', d :: t' => N.eqb c d && eqb s' t'
  | _, _ => false
  end.

(** [str.isspace] on one code point (CPython's [_PyUnicode_IsWhitespace]). *)
Definition isspace (c : char) : bool :=
  ((9 <=? c) && (c <=? 13) || (28 <=? c) && (c <=? 32)
   || (c =? 133) || (c =? 160) || (c =? 5760)
   || (8192 <=? c) && (c <=? 8202)
   || (c =? 8232) || (c =? 8233) || (c =? 8239) || (c =? 8287)
   || (c =? 12288))%N.

Fixpoint dropwhile (p : char -> bool) (s : str) : str :=
  match s with
  | [] => []
  | c :: s' => if p c then dropwhile p s' else s
  end.

Definition lstrip_with (p : char -> bool) (s : str) : str := dropwhile p s.
Definition rstrip_with (p : char -> bool) (s : str) : str :=
  rev (dropwhile p (rev s)).

(** [s.strip()] *)
Definition strip (s : str) : str := rstrip_with isspace (lstrip_with isspace s).

(** [s.rstrip(chars)] *)
Definition rstrip (chars : str) (s : str) : str :=
  rstrip_with (fun c => existsb (N.eqb c) chars) s.

(** [s.split(sep)] for a separator of one character. *)
Fixpoint split (sep : char) (s : str) : list str :=
  match s with
  | [] => [[]]
  | c :: s' =>
      if N.eqb c sep then [] :: split sep s'
      else match split sep s' with
           | w :: ws => (c :: w) :: ws
           | [] => [[c]]
           end
  end.

(** [sep.join(parts)] *)
Fixpoint join (sep : str) (parts : list str) : str :=
  match parts with
  | [] => []
  | [p] => p
  | p :: ps => p ++ sep ++ join sep ps
  end.

(** [str(n)] for an integer. *)
Definition of_Z (z : Z) : str := lit (NilZero.string_of_int (Z.to_int z)).

Definition comma : char := 44%N.
Definition slash : char := 47%N.
Definition newline : char := 10%N.

End Str.
Import Str.

(** ** JSON values *)

#[local] Unset Elimination Schemes.

Inductive json : Type :=
| JNull
| JBool (b : bool)
| JInt (z : Z)
| JFloat (f : spec_float)
| JStr (s : str)
| JList (l : list json)
| JDict (d : list (str * json)).

#[local] Set Elimination Schemes.

(** ** Exceptions

    Every constructor is a subclass of Python's [Exception] (also
    [typer.Exit], which is click's [Exit(RuntimeError)]), so [except
    Exception] catches all of them.  Each carries the text [str(e)] gives. *)

Inductive exc : Type :=
| ValueError (msg : str)
| HTTPError (status : Z) (msg : str)
| RequestException (msg : str)
| JSONDecodeError (msg : str)
| AttributeError (msg : str)
| TypeError (msg : str)
| Exit (code : Z).

Definition exc_str (e : exc) : str :=
  match e with
  | ValueError m | HTTPError _ m | RequestException m | JSONDecodeError m
  | AttributeError m | TypeError m => m
  | Exit c => of_Z c
  end.

(** ** The world outside the program *)

Inductive http_method := GET | POST.

(** One call of [requests.post] or [requests.get], with the keyword
    arguments the client passes ([None] where it passes none). *)
Record request : Type := mkRequest {
  method : http_method;
  url : str;
  json_body : option json;
  params : option json;
  headers : option (list (str * str));
  timeout : Z
}.

(** What [requests] hands back: the final response.  [body] is what
    [response.json()] yields: a decoded value, or the message of the decode
    error. *)
Record response : Type := mkResponse {
  status_code : Z;
  reason : str;
  resp_url : str;
  body : str + json
}.

Inductive outcome :=
| Failed (msg : str)          (* connection error, timeout, ... *)
| Responded (r : response).

(** Everything the program reads but does not define: the process
    environment, standard input, the remote service (which may answer
    according to the requests it has seen), and the Python built-ins
    [repr(float)] and [repr(str)]. *)
Record world : Type := mkWorld {
  environ : str -> option str;
  stdin_isatty : bool;
  stdin_read : str;
  server : list request -> request -> outcome;
  repr_float : spec_float -> str;
  repr_str : str -> str
}.

(** ** Python's dynamic operations on decoded values *)

Module Py.

Definition type_name (v : json) : str :=
  match v with
  | JNull => lit "NoneType"
  | JBool _ => lit "bool"
  | JInt _ => lit "int"
  | JFloat _ => lit "float"
  | JStr _ => lit "str"
  | JList _ => lit "list"
  | JDict _ => lit "dict"
  end.

(** [bool(v)] *)
Definition truthy (v : json) : bool :=
  match v with
  | JNull => false
  | JBool b => b
  | JInt z => negb (z =? 0)
  | JFloat (S754_zero _) => false
  | JFloat _ => true
  | JStr s => match s with [] => false | _ => true end
  | JList l => match l with [] => false | _ => true end
  | JDict d => match d with [] => false | _ => true end
  end.

(** [d.get(k)] on the association list of a dict. *)
Fixpoint lookup (d : list (str * json)) (k : str) : option json :=
  match d with
  | [] => None
  | (k', v) :: d' => if Str.eqb k' k then Some v else lookup d' k
  end.

(** [v.get(k, default)] *)
Definition get (v : json) (k : str) (default : json) : exc + json :=
  match v with
  | JDict d => inr (match lookup d k with Some x => x | None => default end)
  | _ => inl (AttributeError
                (lit "'" ++ type_name v ++ lit "' object has no attribute 'get'"))
  end.

(** [v[:n]].  (Slicing a dict is a [TypeError] up to Python 3.11 and a
    [KeyError] from 3.12 on; the model takes the former.) *)
Definition slice_to (n : nat) (v : json) : exc + json :=
  match v with
  | JStr s => inr (JStr (firstn n s))
  | JList l => inr (JList (firstn n l))
  | JDict _ => inl (TypeError (lit "unhashable type: 'slice'"))
  | _ => inl (TypeError
                (lit "'" ++ type_name v ++ lit "' object is not subscriptable"))
  end.

(** [len(v)] *)
Definition len (v : json) : exc + Z :=
  match v with
  | JStr s => inr (Z.of_nat (List.length s))
  | JList l => inr (Z.of_nat (List.length l))
  | JDict d => inr (Z.of_nat (List.length d))
  | _ => inl (TypeError
                (lit "object of type '" ++ type_name v ++ lit "' has no len()"))
  end.

(** The items [for x in v] goes through. *)
Definition iter (v : json) : exc + list json :=
  match v with
  | JStr s => inr (map (fun c => JStr [c]) s)
  | JList l => inr l
  | JDict d => inr (map (fun kv => JStr (fst kv)) d)
  | _ => inl (TypeError
                (lit "'" ++ type_name v ++ lit "' object is not iterable"))
  end.

(** [sep.join(items)]: every item must be a [str]. *)
Fixpoint strs_from (i : Z) (items : list json) : exc + list str :=
  match items with
  | [] => inr []
  | JStr s :: rest =>
      match strs_from (i + 1) rest with
      | inr ss => inr (s :: ss)
      | inl e => inl e
      end
  | v :: _ => inl (TypeError
                     (lit "sequence item " ++ of_Z i
                      ++ lit ": expected str instance, "
                      ++ type_name v ++ lit " found"))
  end.

Definition join (sep : str) (items : list json) : exc + str :=
  match strs_from 0 items with
  | inr ss => inr (Str.join sep ss)
  | inl e => inl e
  end.

(** [v == s] for a string [s]. *)
Definition eq_str (v : json) (s : str) : bool :=
  match v with
  | JStr t => Str.eqb t s
  | _ => false
  end.

(** [a or b] for an optional string [a]. *)
Definition or_else (a : option str) (b : str) : str :=
  match a with
  | Some (c :: s) => c :: s
  | _ => b
  end.

Section Repr.
Variable w : world.

(** [repr(v)] *)
Fixpoint repr (v : json) : str :=
  match v with
  | JNull => lit "None"
  | JBool true => lit "True"
  | JBool false => lit "False"
  | JInt z => of_Z z
  | JFloat f => repr_float w f
  | JStr s => repr_str w s
  | JList l => lit "[" ++ Str.join (lit ", ") (map repr l) ++ lit "]"
  | JDict d =>
      lit "{"
      ++ Str.join (lit ", ")
           (map (fun kv : str * json => let (k, x) := kv in
                           repr_str w k ++ lit ": " ++ repr x) d)
      ++ lit "}"
  end.

(** [f"{v}"], that is [str(v)]. *)
Definition format (v : json) : str :=
  match v with
  | JStr s => s
  | _ => repr v
  end.
End Repr.

End Py.

(** ** The monad of the commands *)

Record state : Type := mkState {
  console : list (list json);     (* one entry per [rprint] call: its arguments *)
  network : list request;         (* the calls made to [requests] *)
  constructed : nat               (* how many times [PondClient(...)] was called *)
}.

Definition initial : state :=
  {| console := []; network := []; constructed := 0 |}.

(** The three ways a step changes the record. *)
Definition printed (s : state) (args : list json) : state :=
  {| console := console s ++ [args];
     network := network s;
     constructed := constructed s |}.

Definition requested (s : state) (rq : request) : state :=
  {| console := console s;
     network := network s ++ [rq];
     constructed := constructed s |}.

Definition instantiated (s : state) : state :=
  {| console := console s;
     network := network s;
     constructed := S (constructed s) |}.

Definition M (A : Type) : Type := state -> (exc + A) * state.

Definition ret {A} (a : A) : M A := fun s => (inr a, s).

Definition bind {A B} (m : M A) (k : A -> M B) : M B :=
  fun s => match m s with
           | (inr a, s') => k a s'
           | (inl e, s') => (inl e, s')
           end.

Definition raise {A} (e : exc) : M A := fun s => (inl e, s).

(** A pure computation that may raise. *)
Definition lift {A} (r : exc + A) : M A := fun s => (r, s).

(** [try: body  except Exception as e: handler e] *)
Definition try_except {A} (body : M A) (handler : exc -> M A) : M A :=
  fun s => match body s with
           | (inr a, s') => (inr a, s')
           | (inl e, s') => handler e s'
           end.

Declare Scope py_scope.
Delimit Scope py_scope with py.
Notation "x <- m ;; k" := (bind m (fun x => k))
  (at level 61, m at next level, right associativity) : py_scope.
Notation "m ;; k" := (bind m (fun _ => k))
  (at level 61, right associativity) : py_scope.
Open Scope py_scope.

(** [rprint(x, ...)] *)
Definition rprint (args : list json) : M unit :=
  fun s => (inr tt, printed s args).


(** ** The part of [requests] the client uses *)

Section Requests.
Variable w : world.

(** The call is recorded, and the world decides its outcome. *)
Definition send (rq : request) : M response :=
  fun s =>
    match server w (network s) rq with
    | Failed m => (inl (RequestException m), requested s rq)
    | Responded r => (inr r, requested s rq)
    end.

(** [requests.post(url, json=..., headers=..., timeout=...)] *)
Definition requests_post (url : str) (json : json)
    (headers : option (list (str * str))) (timeout : Z) : M response :=
  send (mkRequest POST url (Some json) None headers timeout).

(** [requests.get(url, params=..., headers=..., timeout=...)] *)
Definition requests_get (url : str) (params : option json)
    (headers : option (list (str * str))) (timeout : Z) : M response :=
  send (mkRequest GET url None params headers timeout).
End Requests.

(** [Response.raise_for_status]: [HTTPError] for a 4xx or 5xx status, nothing
    otherwise. *)
Definition raise_for_status (r : response) : M unit :=
  let st := status_code r in
  if (400 <=? st) && (st <? 500) then
    raise (HTTPError st (of_Z st ++ lit " Client Error: " ++ reason r
                         ++ lit " for url: " ++ resp_url r))
  else if (500 <=? st) && (st <? 600) then
    raise (HTTPError st (of_Z st ++ lit " Server Error: " ++ reason r
                         ++ lit " for url: " ++ resp_url r))
  else ret tt.

(** [Response.json] *)
Definition response_json (r : response) : M json :=
  match body r with
  | inr v => ret v
  | inl m => raise (JSONDecodeError m)
  end.

(** [d[k] = v] on the association list of a dict. *)
Fixpoint setitem (d : list (str * json)) (k : str) (v : json)
    : list (str * json) :=
  match d with
  | [] => [(k, v)]
  | (k', v') :: d' =>
      if Str.eqb k' k then (k', v) :: d' else (k', v') :: setitem d' k v
  end.

(** ** client.py *)

Module PondClient.

Record t : Type := mk { base_url : str; api_key : str }.

Section Client.
Variable w : world.

(** [os.environ.get(k, default)] *)
Definition environ_get (k default : str) : str :=
  match environ w k with
  | Some v => v
  | None => default
  end.

(** Entering the constructor. *)
Definition called : M unit := fun s => (inr tt, instantiated s).

Definition __init__ (base_url api_key : option str) : M t :=
  called ;;
  let self_base_url :=
    rstrip [slash]
      (Py.or_else base_url (environ_get (lit "POND_BASE_URL") [])) in
  let self_api_key :=
    Py.or_else api_key (environ_get (lit "POND_API_KEY") []) in
  match self_base_url with
  | [] =>
      raise (ValueError
               (lit "POND_BASE_URL not set. "
                ++ lit "Set it in your environment or pass base_url."))
  | _ :: _ =>
      match self_api_key with
      | [] =>
          raise (ValueError
                   (lit "POND_API_KEY not set. "
                    ++ lit "Set it in your environment or pass api_key."))
      | _ :: _ => ret (mk self_base_url self_api_key)
      end
  end.

Variable self : t.

Definition _headers : list (str * str) :=
  [ (lit "Content-Type", lit "application/json");
    (lit "X-API-Key", api_key self) ].

Definition _post (endpoint : str) (data : json) : M json :=
  let url := base_url self ++ lit "/api/v1/" ++ endpoint in
  response <- requests_post w url data (Some _headers) 60 ;;
  raise_for_status response ;;
  response_json response.

Definition _get (endpoint : str) (params : option json) : M json :=
  let url := base_url self ++ lit "/api/v1/" ++ endpoint in
  response <- requests_get w url params (Some _headers) 60 ;;
  raise_for_status response ;;
  response_json response.

Definition _get_no_auth (endpoint : str) : M json :=
  let url := base_url self ++ lit "/api/v1/" ++ endpoint in
  response <- requests_get w url None None 60 ;;
  raise_for_status response ;;
  response_json response.

Definition store (content : str) (tags : option (list str)) : M json :=
  let data := [(lit "content", JStr content)] in
  let data :=
    match tags with
    | Some ((_ :: _) as tags) => setitem data (lit "tags") (JList (map JStr tags))
    | _ => data
    end in
  _post (lit "store") (JDict data).

Definition search (query : str) (limit : Z) : M json :=
  _post (lit "search")
    (JDict [(lit "query", JStr query); (lit "limit", JInt limit)]).

Definition recent (hours : json) (limit : Z) : M json :=
  _post (lit "recent")
    (JDict [(lit "hours", hours); (lit "limit", JInt limit)]).

Definition init : M json := _post (lit "init") (JDict []).

Definition health : M json := _get_no_auth (lit "health").
End Client.

End PondClient.

(** ** cli.py *)

Module Cli.

Section Commands.
Variable w : world.

Definition get_client : M PondClient.t :=
  try_except (PondClient.__init__ w None None)
    (fun e =>
       match e with
       | ValueError _ =>
           rprint [JStr (lit "[red]Error:[/red] " ++ exc_str e)] ;;
           raise (Exit 1)
       | _ => raise e
       end).

Definition format_tag (t : json) : str :=
  lit "[dim]#" ++ Py.format w t ++ lit "[/dim]".

Definition format_memory (mem : json) (index : option Z) : exc + str :=
  match Py.get mem (lit "content") (JStr []) with
  | inl e => inl e
  | inr content =>
  match Py.get mem (lit "created_at") (JStr []) with
  | inl e => inl e
  | inr created_at =>
  match Py.slice_to 10 created_at with
  | inl e => inl e
  | inr created =>
  match Py.get mem (lit "tags") (JList []) with
  | inl e => inl e
  | inr tags =>
      let lines :=
        match index with
        | Some index =>
            [JStr (lit "[bold cyan]#" ++ of_Z index ++ lit "[/bold cyan] [dim]("
                   ++ Py.format w created ++ lit ")[/dim]")]
        | None =>
            [JStr (lit "[dim](" ++ Py.format w created ++ lit ")[/dim]")]
        end in
      let lines := lines ++ [content] in
      if Py.truthy tags then
        match Py.slice_to 5 tags with
        | inl e => inl e
        | inr first_tags =>
        match Py.iter first_tags with
        | inl e => inl e
        | inr ts =>
            let tag_str := Str.join (lit ", ") (map format_tag ts) in
            let lines := lines ++ [JStr tag_str] in
            Py.join [newline] lines
        end end
      else Py.join [newline] lines
  end end end end.

(** The tag list the [store] command passes to the client. *)
Definition tag_list (tags : option str) : option (list str) :=
  match tags with
  | Some ((_ :: _) as tags) => Some (map strip (split comma tags))
  | _ => None
  end.

Definition store (content tags : option str) : M unit :=
  content <-
    match content with
    | None =>
        (if stdin_isatty w then
           rprint [JStr (lit "[yellow]Enter memory content (Ctrl+D to finish):[/yellow]")]
         else ret tt) ;;
        ret (strip (stdin_read w))
    | Some content => ret content
    end ;;
  match content with
  | [] =>
      rprint [JStr (lit "[red]Error:[/red] No content provided")] ;;
      raise (Exit 1)
  | _ :: _ =>
      client <- get_client ;;
      let tag_list := tag_list tags in
      try_except
        (result <- PondClient.store w client content tag_list ;;
         rprint [JStr (lit "[green]" ++ [10003%N] ++ lit " Memory stored[/green]")])
        (fun e =>
           rprint [JStr (lit "[red]Error storing memory:[/red] " ++ exc_str e)] ;;
           raise (Exit 1))
  end.

(** [for i, mem in enumerate(memories, i): rprint(format_memory(mem, i)); rprint()] *)
Fixpoint print_memories (i : Z) (memories : list json) : M unit :=
  match memories with
  | [] => ret tt
  | mem :: rest =>
      text <- lift (format_memory mem (Some i)) ;;
      rprint [JStr text] ;;
      rprint [] ;;
      print_memories (i + 1) rest
  end.

Definition search (query : str) (limit : Z) : M unit :=
  client <- get_client ;;
  try_except
    (result <- PondClient.search w client query limit ;;
     memories <- lift (Py.get result (lit "memories") (JList [])) ;;
     if Py.truthy memories then
       n <- lift (Py.len memories) ;;
       rprint [JStr (lit "[dim]Found " ++ of_Z n ++ lit " memories:[/dim]"
                     ++ [newline])] ;;
       items <- lift (Py.iter memories) ;;
       print_memories 1 items
     else
       rprint [JStr (lit "[yellow]No memories found[/yellow]")])
    (fun e =>
       rprint [JStr (lit "[red]Error searching:[/red] " ++ exc_str e)] ;;
       raise (Exit 1)).

Definition recent (hours : spec_float) (limit : Z) : M unit :=
  client <- get_client ;;
  try_except
    (result <- PondClient.recent w client (JFloat hours) limit ;;
     memories <- lift (Py.get result (lit "memories") (JList [])) ;;
     if Py.truthy memories then
       n <- lift (Py.len memories) ;;
       rprint [JStr (lit "[dim]Recent " ++ of_Z n ++ lit " memories (last "
                     ++ Py.format w (JFloat hours) ++ lit "h):[/dim]"
                     ++ [newline])] ;;
       items <- lift (Py.iter memories) ;;
       print_memories 1 items
     else
       rprint [JStr (lit "[yellow]No recent memories[/yellow]")])
    (fun e =>
       rprint [JStr (lit "[red]Error getting recent:[/red] " ++ exc_str e)] ;;
       raise (Exit 1)).

Definition init : M unit :=
  client <- get_client ;;
  try_except
    (result <- PondClient.init w client ;;
     output <- lift (Py.get result (lit "result") (JStr [])) ;;
     if Py.truthy output then rprint [output] else rprint [result])
    (fun e =>
       rprint [JStr (lit "[red]Error initializing:[/red] " ++ exc_str e)] ;;
       raise (Exit 1)).

Definition health : M unit :=
  client <- get_client ;;
  try_except
    (result <- PondClient.health w client ;;
     status <- lift (Py.get result (lit "status") (JStr (lit "unknown"))) ;;
     db <- lift (Py.get result (lit "database") (JStr (lit "unknown"))) ;;
     emb <- lift (Py.get result (lit "embeddings") (JStr (lit "unknown"))) ;;
     version <- lift (Py.get result (lit "version") (JStr (lit "?"))) ;;
     if Py.eq_str status (lit "healthy") then
       rprint [JStr (lit "[green]" ++ [10003%N] ++ lit " Pond is healthy[/green] (v"
                     ++ Py.format w version ++ lit ")")] ;;
       rprint [JStr (lit "  Database: " ++ Py.format w db)] ;;
       rprint [JStr (lit "  Embeddings: " ++ Py.format w emb)]
     else
       rprint [JStr (lit "[yellow]" ++ [9888%N] ++ lit " Pond status: "
                     ++ Py.format w status ++ lit "[/yellow]")])
    (fun e =>
       rprint [JStr (lit "[red]Error checking health:[/red] " ++ exc_str e)] ;;
       raise (Exit 1)).

(** One invocation of the program, after typer has parsed the command
    line into a subcommand and the arguments it calls the function with:
    [None] for the content or the tags of [store] when they are not given,
    the converted values (or converted defaults) of the numeric options. *)
Inductive command : Type :=
| Store (content tags : option str)
| Search (query : str) (limit : Z)
| Recent (hours : spec_float) (limit : Z)
| Init
| Health.

Definition app (c : command) : M unit :=
  match c with
  | Store content tags => store content tags
  | Search query limit => search query limit
  | Recent hours limit => recent hours limit
  | Init => init
  | Health => health
  end.

(** Running the program from a fresh process. *)
Definition run (c : command) : (exc + unit) * state := app c initial.
End Commands.

End Cli.

(** ** Vocabulary of the specification *)

(** No value is available for a setting: the explicit argument is absent or
    empty, and so is the environment variable. *)
Definition missing (arg envv : option str) : Prop :=
  (arg = None \/ arg = Some []) /\ (envv = None \/ envv = Some []).

(** The value in effect for a setting: the explicit argument when it is not
    empty, the environment variable otherwise. *)
Definition in_effect (arg envv : option str) : str :=
  match arg with
  | Some (c :: s) => c :: s
  | _ => match envv with Some v => v | None => [] end
  end.

Definition POND_BASE_URL : str := lit "POND_BASE_URL".
Definition POND_API_KEY : str := lit "POND_API_KEY".

(** The environment configures the client [self]: both variables are set,
    the key is not empty and the base URL has a character other than a
    slash. *)
Definition configured (w : world) (self : PondClient.t) : Prop :=
  exists base key,
    environ w POND_BASE_URL = Some base /\
    environ w POND_API_KEY = Some key /\
    (exists c, In c base /\ c <> slash) /\
    key <> [] /\
    self = PondClient.mk (rstrip [slash] base) key.

(** The service answers every request with [r]. *)
Definition answers (w : world) (r : response) : Prop :=
  forall history rq, server w history rq = Responded r.

(** The commands that go through the authenticated endpoints. *)
Definition authenticated (c : Cli.command) : bool :=
  match c with
  | Cli.Health => false
  | _ => true
  end.

(** The content [store] ends up with is not empty (the other commands take
    no content). *)
Definition content_given (w : world) (c : Cli.command) : bool :=
  match c with
  | Cli.Store (Some []) _ => false
  | Cli.Store None _ =>
      match strip (stdin_read w) with [] => false | _ :: _ => true end
  | _ => true
  end.

(** The text each command puts before the error it reports. *)
Definition error_label (c : Cli.command) : str :=
  match c with
  | Cli.Store _ _ => lit "[red]Error storing memory:[/red] "
  | Cli.Search _ _ => lit "[red]Error searching:[/red] "
  | Cli.Recent _ _ => lit "[red]Error getting recent:[/red] "
  | Cli.Init => lit "[red]Error initializing:[/red] "
  | Cli.Health => lit "[red]Error checking health:[/red] "
  end.

(** The message of the [HTTPError] that [raise_for_status] builds. *)
Definition http_error (r : response) : exc :=
  HTTPError (status_code r)
    (of_Z (status_code r)
     ++ (if status_code r <? 500 then lit " Client Error: "
         else lit " Server Error: ")
     ++ reason r ++ lit " for url: " ++ resp_url r).

(** A computation that sends nothing and instantiates no client. *)
Definition silent {A} (m : M A) : Prop :=
  forall s,
    network (snd (m s)) = network s /\
    constructed (snd (m s)) = constructed s.

(** A computation that makes the single request [rq], whatever the answer,
    and instantiates no client. *)
Definition sends {A} (rq : request) (m : M A) : Prop :=
  forall s,
    network (snd (m s)) = network s ++ [rq] /\
    constructed (snd (m s)) = constructed s.

(** The request [_post] makes. *)
Definition post_request (self : PondClient.t) (endpoint : str) (data : json)
    : request :=
  mkRequest POST (PondClient.base_url self ++ lit "/api/v1/" ++ endpoint)
    (Some data) None (Some (PondClient._headers self)) 60.

(** The content the [store] command works with. *)
Definition store_content (w : world) (content : option str) : str :=
  match content with
  | Some c => c
  | None => strip (stdin_read w)
  end.

(** ** Sample worlds *)

Definition env_of (base key : option str) : str -> option str :=
  fun k =>
    if Str.eqb k POND_BASE_URL then base
    else if Str.eqb k POND_API_KEY then key
    else None.

(** A world whose service gives one fixed answer, with stand-ins for the two
    Python built-ins. *)
Definition sample_world (base key : option str) (tty : bool) (input : str)
    (answer : outcome) : world :=
  {| environ := env_of base key;
     stdin_isatty := tty;
     stdin_read := input;
     server := fun _ _ => answer;
     repr_float := fun _ => lit "0.0";
     repr_str := fun s => lit "'" ++ s ++ lit "'" |}.

Definition pond_world (tty : bool) (input : str) (answer : outcome) : world :=
  sample_world (Some (lit "http://pond/")) (Some (lit "secret")) tty input answer.

Definition pond_client : PondClient.t :=
  PondClient.mk (lit "http://pond") (lit "secret").

Definition ok_response (v : json) : response :=
  {| status_code := 200; reason := lit "OK";
     resp_url := lit "http://pond/api/v1/x"; body := inr v |}.

Definition unavailable : response :=
  {| status_code := 503; reason := lit "Service Unavailable";
     resp_url := lit "http://pond/api/v1/init";
     body := inl (lit "Expecting value: line 1 column 1 (char 0)") |}.


Definition sample_memory : list (str * json) :=
  [ (lit "content", JStr (lit "remember the milk"));
    (lit "created_at", JStr (lit "2025-01-15T10:30:00Z"));
    (lit "tags", JList (map (fun t => JStr (lit t))
                          ["a"; "b"; "c"; "d"; "e"; "f"]%string)) ].




(** ** The commands seen from outside *)

Definition prompt : str :=
  lit "[yellow]Enter memory content (Ctrl+D to finish):[/yellow]".

(** The state in which a command reaches [get_client]: only [store] without
    positional content may have printed before, the prompt on a terminal. *)
Definition prompted (w : world) (c : Cli.command) : state :=
  match c with
  | Cli.Store None _ =>
      if stdin_isatty w then printed initial [JStr prompt] else initial
  | _ => initial
  end.

(** The client method each command calls, with the arguments it passes. *)
Definition client_call (w : world) (self : PondClient.t) (c : Cli.command)
    : M json :=
  match c with
  | Cli.Store content tags =>
      PondClient.store w self (store_content w content) (Cli.tag_list tags)
  | Cli.Search query limit => PondClient.search w self query limit
  | Cli.Recent hours limit => PondClient.recent w self (JFloat hours) limit
  | Cli.Init => PondClient.init w self
  | Cli.Health => PondClient.health w self
  end.

(** The endpoint of each command. *)
Definition endpoint_of (c : Cli.command) : str :=
  match c with
  | Cli.Store _ _ => lit "store"
  | Cli.Search _ _ => lit "search"
  | Cli.Recent _ _ => lit "recent"
  | Cli.Init => lit "init"
  | Cli.Health => lit "health"
  end.

(** The JSON body of each command's request ([None]: no body). *)
Definition body_of (w : world) (c : Cli.command) : option json :=
  match c with
  | Cli.Store content tags =>
      Some (JDict
              ((lit "content", JStr (store_content w content))
               :: match tags with
                  | Some ((_ :: _) as tags) =>
                      [(lit "tags", JList (map JStr (map strip (split comma tags))))]
                  | _ => []
                  end))
  | Cli.Search query limit =>
      Some (JDict [(lit "query", JStr query); (lit "limit", JInt limit)])
  | Cli.Recent hours limit =>
      Some (JDict [(lit "hours", JFloat hours); (lit "limit", JInt limit)])
  | Cli.Init => Some (JDict [])
  | Cli.Health => None
  end.

(** The request of each command, for the client [self]. *)
Definition call_request (w : world) (self : PondClient.t) (c : Cli.command)
    : request :=
  {| method := match c with Cli.Health => GET | _ => POST end;
     url := PondClient.base_url self ++ lit "/api/v1/" ++ endpoint_of c;
     json_body := body_of w c;
     params := None;
     headers := if authenticated c then Some (PondClient._headers self) else None;
     timeout := 60 |}.

(** What a request helper returns for an outcome of the service. *)
Definition call_result (o : outcome) : exc + json :=
  match o with
  | Failed m => inl (RequestException m)
  | Responded r =>
      if (400 <=? status_code r) && (status_code r <? 600)
      then inl (http_error r)
      else match body r with
           | inr v => inr v
           | inl m => inl (JSONDecodeError m)
           end
  end.

(** The handler every command installs around its client call. *)
Definition report (c : Cli.command) (e : exc) : M unit :=
  rprint [JStr (error_label c ++ exc_str e)] ;; raise (Exit 1).



(** Values [v[:n]] is defined on. *)
Definition sliceable (v : json) : bool :=
  match v with
  | JStr _ | JList _ => true
  | _ => false
  end.

Definition is_str (v : json) : bool :=
  match v with
  | JStr _ => true
  | _ => false
  end.

(** A field of a mapping, or its default. *)
Definition field (d : list (str * json)) (k : str) (default : json) : json :=
  match Py.lookup d k with
  | Some v => v
  | None => default
  end.

(** The values [format_memory] renders: a mapping whose content is a string,
    whose creation time can be sliced, and whose tags are falsy or can be
    sliced. *)
Definition renderable (mem : json) : bool :=
  match mem with
  | JDict d =>
      is_str (field d (lit "content") (JStr []))
      && sliceable (field d (lit "created_at") (JStr []))
      && (negb (Py.truthy (field d (lit "tags") (JList [])))
          || sliceable (field d (lit "tags") (JList [])))
  | _ => false
  end.

(** A world that differs in standard input only. *)
Definition with_stdin (w : world) (tty : bool) (input : str) : world :=
  {| environ := environ w;
     stdin_isatty := tty;
     stdin_read := input;
     server := server w;
     repr_float := repr_float w;
     repr_str := repr_str w |}.




Definition BASE_URL_NOT_SET : str :=
  lit "POND_BASE_URL not set. Set it in your environment or pass base_url.".

Definition API_KEY_NOT_SET : str :=
  lit "POND_API_KEY not set. Set it in your environment or pass api_key.".

(** * Properties *)

#[local] Arguments lit : simpl never.

(** ** Strings *)

Lemma dropwhile_nil (p : char -> bool) (s : str) :
  dropwhile p s = [] <-> forallb p s = true.
Proof.
  induction s as [|c s IH]; simpl.
  - tauto.
  - destruct (p c); simpl.
    + exact IH.
    + split; discriminate.
Qed.

Lemma rev_nil_inv {A} (l : list A) : rev l = [] -> l = [].
Proof.
  intros H. rewrite <- (rev_involutive l), H. reflexivity.
Qed.

Lemma rstrip_with_nil (p : char -> bool) (s : str) :
  rstrip_with p s = [] <-> forallb p s = true.
Proof.
  unfold rstrip_with. split.
  - intros H. apply rev_nil_inv in H. apply dropwhile_nil in H.
    rewrite forallb_forall in *. intros x Hx. apply H, in_rev.
    rewrite rev_involutive. exact Hx.
  - intros H.
    assert (Hr : forallb p (rev s) = true).
    { rewrite forallb_forall in *. intros x Hx. apply H, in_rev, Hx. }
    apply dropwhile_nil in Hr. rewrite Hr. reflexivity.
Qed.

Lemma strip_whitespace (s : str) :
  forallb isspace s = true -> strip s = [].
Proof.
  intros H. unfold strip, lstrip_with.
  apply dropwhile_nil in H. rewrite H. reflexivity.
Qed.

Lemma rstrip_slash_nil (s : str) :
  rstrip [slash] s = [] <-> forall c, In c s -> c = slash.
Proof.
  unfold rstrip. rewrite rstrip_with_nil, forallb_forall.
  split; intros H c Hc; specialize (H c Hc); simpl in *.
  - rewrite orb_false_r in H. apply N.eqb_eq, H.
  - subst c. reflexivity.
Qed.

Lemma rstrip_slash_cons (s : str) :
  (exists c, In c s /\ c <> slash) ->
  exists c r, rstrip [slash] s = c :: r.
Proof.
  intros (c & Hin & Hne).
  destruct (rstrip [slash] s) as [|d r] eqn:E.
  - apply rstrip_slash_nil with (c := c) in E; [contradiction | exact Hin].
  - eauto.
Qed.

Lemma split_cons (sep : char) (s : str) :
  exists p ps, split sep s = p :: ps.
Proof.
  destruct s as [|c s]; simpl.
  - eauto.
  - destruct (N.eqb c sep); [eauto|].
    destruct (split sep s); eauto.
Qed.

Lemma eqb_refl (s : str) : Str.eqb s s = true.
Proof.
  induction s as [|c s IH]; simpl; [reflexivity|].
  rewrite N.eqb_refl. exact IH.
Qed.

Lemma eqb_eq (s t : str) : Str.eqb s t = true <-> s = t.
Proof.
  revert t. induction s as [|c s IH]; intros [|d t]; simpl;
    try (split; [discriminate | congruence]); [tauto|].
  rewrite andb_true_iff, N.eqb_eq, IH.
  split; [intros [-> ->]; reflexivity | intros H; inversion H; auto].
Qed.

Example isspace_examples :
  map isspace [32; 9; 10; 160; 8203; 65; 14]%N
  = [true; true; true; true; false; false; false].
Proof. reflexivity. Qed.

Example split_example :
  split comma (lit "a, b,,c") = [lit "a"; lit " b"; []; lit "c"].
Proof. reflexivity. Qed.

Example split_empty : split comma [] = [[]].
Proof. reflexivity. Qed.

Example strip_example : strip (lit "  a b  ") = lit "a b".
Proof. reflexivity. Qed.

Example rstrip_example : rstrip [slash] (lit "http://pond//") = lit "http://pond".
Proof. reflexivity. Qed.

Example of_Z_examples : map of_Z [0; 404; -7] = [lit "0"; lit "404"; lit "-7"].
Proof. reflexivity. Qed.

Example tag_list_examples :
  map Cli.tag_list [None; Some []; Some (lit " x ,y"); Some (lit " ")]
  = [None; None; Some [lit "x"; lit "y"]; Some [[]]].
Proof. reflexivity. Qed.

(** ** Client construction *)

Lemma missing_in_effect (arg envv : option str) :
  missing arg envv <-> in_effect arg envv = [].
Proof.
  unfold missing, in_effect. split.
  - intros [[-> | ->] [-> | ->]]; reflexivity.
  - destruct arg as [[|c s]|], envv as [[|d t]|]; intros H;
      try discriminate; auto.
Qed.

Lemma or_else_in_effect (w : world) (arg : option str) (k : str) :
  Py.or_else arg (PondClient.environ_get w k []) = in_effect arg (environ w k).
Proof. reflexivity. Qed.

(** C1 (as amended).  [PondClient(base_url, api_key)] never touches the
    network and prints nothing.  It raises [ValueError] (the specification's
    ConfigurationError) whenever the base URL or the API key is missing or
    empty in both the arguments and the environment.  It returns the client
    when both are available and the base URL in effect has a character other
    than ['/']: the trailing slashes are removed before the test, so a base
    URL made of slashes only is rejected as well. *)
Theorem construction_contract
    (w : world) (base_url api_key : option str) (s : state) :
  let base := in_effect base_url (environ w POND_BASE_URL) in
  let key := in_effect api_key (environ w POND_API_KEY) in
  let out := PondClient.__init__ w base_url api_key s in
  network (snd out) = network s /\
  console (snd out) = console s /\
  (missing base_url (environ w POND_BASE_URL)
   \/ missing api_key (environ w POND_API_KEY)
   \/ (forall c, In c base -> c = slash) ->
   exists msg, fst out = inl (ValueError msg)) /\
  (~ missing base_url (environ w POND_BASE_URL) ->
   ~ missing api_key (environ w POND_API_KEY) ->
   (exists c, In c base /\ c <> slash) ->
   fst out = inr (PondClient.mk (rstrip [slash] base) key)).
Proof.
  intros base key out.
  unfold out, PondClient.__init__, bind, PondClient.called.
  rewrite !or_else_in_effect. fold POND_BASE_URL POND_API_KEY. fold base key.
  destruct (rstrip [slash] base) as [|c r] eqn:Eb;
    [|destruct key as [|k ks] eqn:Ek]; simpl;
    (split; [reflexivity|]); (split; [reflexivity|]); split.
  - eauto.
  - intros _ _ Hc. apply rstrip_slash_cons in Hc.
    destruct Hc as (c & r & Hc). congruence.
  - eauto.
  - intros _ Hk _. exfalso. apply Hk, missing_in_effect. exact Ek.
  - intros [Hm | [Hm | Hm]]; exfalso.
    + apply missing_in_effect in Hm. fold base in Hm.
      rewrite Hm in Eb. discriminate.
    + apply missing_in_effect in Hm. fold key in Hm. congruence.
    + apply rstrip_slash_nil in Hm. congruence.
  - reflexivity.
Qed.

(** Without a base URL the constructor raises, and nothing was sent. *)
Lemma construction_contract_witness :
  let w := sample_world None (Some (lit "secret")) false [] (Failed []) in
  (exists msg, fst (PondClient.__init__ w None None initial) = inl (ValueError msg))
  /\ fst (PondClient.__init__ (pond_world false [] (Failed [])) None None initial)
     = inr pond_client.
Proof.
  split.
  - apply (construction_contract
             (sample_world None (Some (lit "secret")) false [] (Failed []))
             None None initial).
    left. split; left; reflexivity.
  - apply (construction_contract (pond_world false [] (Failed []))
             None None initial).
    + intros [_ [H | H]]; vm_compute in H; discriminate.
    + intros [_ [H | H]]; vm_compute in H; discriminate.
    + exists 104%N. split; [vm_compute; auto | discriminate].
Defined.

(** A base URL of ["/"] is available, and so is the key, yet the constructor
    raises. *)
Lemma slash_base_url_rejected :
  let w := sample_world None None false [] (Failed []) in
  ~ missing (Some (lit "/")) (environ w POND_BASE_URL) /\
  ~ missing (Some (lit "k")) (environ w POND_API_KEY) /\
  fst (PondClient.__init__ w (Some (lit "/")) (Some (lit "k")) initial)
  = inl (ValueError (lit "POND_BASE_URL not set. Set it in your environment or pass base_url.")).
Proof.
  repeat split.
  - intros [[H | H] _]; vm_compute in H; discriminate.
  - intros [[H | H] _]; vm_compute in H; discriminate.
Qed.

(** ** Equations for the client *)

Ltac monad := unfold bind, try_except, ret, raise, lift, rprint in *.

Lemma get_client_ok (w : world) (self : PondClient.t) (s : state) :
  configured w self -> Cli.get_client w s = (inr self, instantiated s).
Proof.
  intros (base & key & Hb & Hk & Hc & Hne & ->).
  unfold Cli.get_client, PondClient.__init__, PondClient.called. monad.
  rewrite !or_else_in_effect. fold POND_BASE_URL POND_API_KEY.
  rewrite Hb, Hk. unfold in_effect.
  destruct (rstrip_slash_cons base Hc) as (c & r & E). rewrite E.
  destruct key as [|k ks]; [congruence | reflexivity].
Qed.

(** Whatever the environment holds, [get_client] instantiates the client
    once and sends nothing. *)
Lemma get_client_footprint (w : world) (s : state) :
  constructed (snd (Cli.get_client w s)) = S (constructed s) /\
  network (snd (Cli.get_client w s)) = network s.
Proof.
  unfold Cli.get_client, PondClient.__init__, PondClient.called. monad.
  destruct (rstrip _ _); [|destruct (Py.or_else _ _)]; simpl; auto.
Qed.

Lemma error_status_split (st : Z) :
  400 <= st < 600 ->
  (400 <=? st) && (st <? 500) = (st <? 500) /\
  ((st <? 500) = false -> (500 <=? st) && (st <? 600) = true).
Proof.
  intros H. split.
  - destruct (Z.leb_spec 400 st); [reflexivity | lia].
  - intros H5. apply Z.ltb_ge in H5.
    apply andb_true_iff. split; [apply Z.leb_le | apply Z.ltb_lt]; lia.
Qed.

Lemma raise_for_status_error (r : response) (s : state) :
  400 <= status_code r < 600 ->
  raise_for_status r s = (inl (http_error r), s).
Proof.
  intros H. unfold raise_for_status, http_error. monad.
  destruct (error_status_split H) as [E1 E2]. rewrite E1.
  destruct (status_code r <? 500); [reflexivity|].
  rewrite E2; reflexivity.
Qed.

Lemma raise_for_status_pass (r : response) (s : state) :
  ~ 400 <= status_code r < 600 ->
  raise_for_status r s = (inr tt, s).
Proof.
  intros H. unfold raise_for_status. monad.
  assert (E1 : (400 <=? status_code r) && (status_code r <? 500) = false).
  { apply andb_false_iff. rewrite Z.leb_gt, Z.ltb_ge. lia. }
  assert (E2 : (500 <=? status_code r) && (status_code r <? 600) = false).
  { apply andb_false_iff. rewrite Z.leb_gt, Z.ltb_ge. lia. }
  rewrite E1, E2. reflexivity.
Qed.

Section Answered.
Variable w : world.
Variable r : response.
Hypothesis Hanswer : answers w r.
Variable self : PondClient.t.


Lemma post_ok (endpoint : str) (data v : json) (s : state) :
  ~ 400 <= status_code r < 600 ->
  body r = inr v ->
  PondClient._post w self endpoint data s
  = (inr v,
     requested s (mkRequest POST
                    (PondClient.base_url self ++ lit "/api/v1/" ++ endpoint)
                    (Some data) None (Some (PondClient._headers self)) 60)).
Proof.
  intros H Hv. unfold PondClient._post, requests_post, send, response_json.
  monad. rewrite Hanswer, raise_for_status_pass, Hv by exact H. reflexivity.
Qed.

Lemma get_no_auth_ok (endpoint : str) (v : json) (s : state) :
  ~ 400 <= status_code r < 600 ->
  body r = inr v ->
  PondClient._get_no_auth w self endpoint s
  = (inr v,
     requested s (mkRequest GET
                    (PondClient.base_url self ++ lit "/api/v1/" ++ endpoint)
                    None None None 60)).
Proof.
  intros H Hv.
  unfold PondClient._get_no_auth, requests_get, send, response_json.
  monad. rewrite Hanswer, raise_for_status_pass, Hv by exact H. reflexivity.
Qed.

End Answered.

(** ** Failed requests *)


Lemma pond_world_configured (tty : bool) (input : str) (answer : outcome) :
  configured (pond_world tty input answer) pond_client.
Proof.
  exists (lit "http://pond/"), (lit "secret").
  repeat split; try reflexivity.
  - exists 104%N. split; [vm_compute; auto | discriminate].
  - discriminate.
Qed.



(** ** What a computation sends *)

Lemma silent_ret {A} (a : A) : silent (ret a).
Proof. intros s. split; reflexivity. Qed.

Lemma silent_raise {A} (e : exc) : silent (@raise A e).
Proof. intros s. split; reflexivity. Qed.

Lemma silent_lift {A} (r : exc + A) : silent (lift r).
Proof. intros s. split; reflexivity. Qed.

Lemma silent_rprint (args : list json) : silent (rprint args).
Proof. intros s. split; reflexivity. Qed.

Lemma silent_bind {A B} (m : M A) (k : A -> M B) :
  silent m -> (forall a, silent (k a)) -> silent (bind m k).
Proof.
  intros Hm Hk s. unfold bind. specialize (Hm s).
  destruct (m s) as [[e | a] s']; simpl in *; [exact Hm|].
  destruct (Hk a s') as [Hn Hc]. destruct Hm as [Hn' Hc'].
  split; congruence.
Qed.

Lemma silent_if {A} (b : bool) (m1 m2 : M A) :
  silent m1 -> silent m2 -> silent (if b then m1 else m2).
Proof. destruct b; auto. Qed.

Lemma sends_bind {A B} (rq : request) (m : M A) (k : A -> M B) :
  sends rq m -> (forall a, silent (k a)) -> sends rq (bind m k).
Proof.
  intros Hm Hk s. unfold bind. specialize (Hm s).
  destruct (m s) as [[e | a] s']; simpl in *; [exact Hm|].
  destruct (Hk a s') as [Hn Hc]. destruct Hm as [Hn' Hc'].
  split; congruence.
Qed.

Lemma sends_try_except {A} (rq : request) (m : M A) (h : exc -> M A) :
  sends rq m -> (forall e, silent (h e)) -> sends rq (try_except m h).
Proof.
  intros Hm Hh s. unfold try_except. specialize (Hm s).
  destruct (m s) as [[e | a] s']; simpl in *; [|exact Hm].
  destruct (Hh e s') as [Hn Hc]. destruct Hm as [Hn' Hc'].
  split; congruence.
Qed.

Create HintDb footprint.

#[local] Hint Resolve silent_ret silent_raise silent_lift silent_rprint
  silent_bind silent_if : footprint.

Lemma silent_report (label : str) (e : exc) :
  silent (rprint [JStr (label ++ exc_str e)] ;; @raise unit (Exit 1)).
Proof. auto with footprint. Qed.

Lemma silent_raise_for_status (r : response) : silent (raise_for_status r).
Proof.
  unfold raise_for_status.
  repeat apply silent_if; auto with footprint.
Qed.

Lemma silent_response_json (r : response) : silent (response_json r).
Proof. unfold response_json. destruct (body r); auto with footprint. Qed.

Lemma sends_send (w : world) (rq : request) : sends rq (send w rq).
Proof.
  intros s. unfold send. destruct (server w (network s) rq); split; reflexivity.
Qed.

Lemma sends_post (w : world) (self : PondClient.t) (endpoint : str) (data : json) :
  sends (post_request self endpoint data) (PondClient._post w self endpoint data).
Proof.
  unfold PondClient._post, requests_post.
  apply sends_bind; [apply sends_send|].
  intros response. apply silent_bind; [apply silent_raise_for_status|].
  intros _. apply silent_response_json.
Qed.

Lemma sends_get_no_auth (w : world) (self : PondClient.t) (endpoint : str) :
  sends (mkRequest GET (PondClient.base_url self ++ lit "/api/v1/" ++ endpoint)
           None None None 60)
    (PondClient._get_no_auth w self endpoint).
Proof.
  unfold PondClient._get_no_auth, requests_get.
  apply sends_bind; [apply sends_send|].
  intros response. apply silent_bind; [apply silent_raise_for_status|].
  intros _. apply silent_response_json.
Qed.

Lemma silent_print_memories (w : world) (memories : list json) (i : Z) :
  silent (Cli.print_memories w i memories).
Proof.
  revert i. induction memories as [|mem rest IH]; intros i; simpl.
  - apply silent_ret.
  - apply silent_bind; [apply silent_lift|]. intros text.
    apply silent_bind; [apply silent_rprint|]. intros _.
    apply silent_bind; [apply silent_rprint|]. intros _.
    apply IH.
Qed.

(** What follows the client call in [search] and [recent]. *)
Lemma silent_listing (w : world) (result : json) (header : Z -> str) (none : str) :
  silent
    (memories <- lift (Py.get result (lit "memories") (JList [])) ;;
     if Py.truthy memories then
       n <- lift (Py.len memories) ;;
       rprint [JStr (header n)] ;;
       items <- lift (Py.iter memories) ;;
       Cli.print_memories w 1 items
     else rprint [JStr none]).
Proof.
  apply silent_bind; [apply silent_lift|]. intros memories.
  apply silent_if; [|apply silent_rprint].
  apply silent_bind; [apply silent_lift|]. intros n.
  apply silent_bind; [apply silent_rprint|]. intros _.
  apply silent_bind; [apply silent_lift|]. intros items.
  apply silent_print_memories.
Qed.

(** A command body that makes one request with the client it is given
    makes at most one request in all, after one instantiation. *)
Lemma with_client_footprint {A} (w : world) (body : PondClient.t -> M A) (s : state) :
  (forall self, exists rq, sends rq (body self)) ->
  constructed (snd (bind (Cli.get_client w) body s)) = S (constructed s) /\
  (network (snd (bind (Cli.get_client w) body s)) = network s
   \/ exists rq, network (snd (bind (Cli.get_client w) body s)) = network s ++ [rq]).
Proof.
  intros Hbody. unfold bind.
  destruct (get_client_footprint w s) as [Hc Hn].
  destruct (Cli.get_client w s) as [[e | self] s1]; simpl in *.
  - auto.
  - destruct (Hbody self) as [rq Hrq]. destruct (Hrq s1) as [Hn1 Hc1].
    split; [congruence|]. right. exists rq. congruence.
Qed.

Ltac one_request :=
  intros; eexists; apply sends_try_except;
  [ apply sends_bind; [apply sends_post|]
  | intros; apply silent_report ].

Lemma store_body_sends (w : world) (content : str) (tags : option str)
    (self : PondClient.t) :
  exists rq,
    sends rq
      (try_except
         (result <- PondClient.store w self content (Cli.tag_list tags) ;;
          rprint [JStr (lit "[green]" ++ [10003%N] ++ lit " Memory stored[/green]")])
         (fun e =>
            rprint [JStr (lit "[red]Error storing memory:[/red] " ++ exc_str e)] ;;
            raise (Exit 1))).
Proof.
  unfold PondClient.store. one_request. intros; apply silent_rprint.
Qed.

Lemma app_footprint (w : world) (c : Cli.command) (s : state) :
  constructed (snd (Cli.app w c s))
  = (constructed s + if content_given w c then 1 else 0)%nat /\
  (network (snd (Cli.app w c s)) = network s
   \/ exists rq, network (snd (Cli.app w c s)) = network s ++ [rq]).
Proof.
  destruct c as [content tags | query limit | hours limit | | ]; simpl.
  - unfold Cli.store.
    destruct content as [[|c0 content]|]; simpl.
    + rewrite Nat.add_0_r. auto.
    + rewrite Nat.add_1_r.
      apply (with_client_footprint w _ s). intros self.
      apply store_body_sends.
    + unfold bind at 1. unfold bind at 2.
      destruct (stdin_isatty w); simpl;
        destruct (strip (stdin_read w)) as [|c0 content]; simpl;
        rewrite ?Nat.add_0_r, ?Nat.add_1_r; auto;
        match goal with
        | |- context [bind (Cli.get_client w) ?body ?s1] =>
            destruct (with_client_footprint w body s1) as [Hc Hn];
              [intros self; apply store_body_sends|]
        end; simpl in *; auto.
  - rewrite Nat.add_1_r. unfold Cli.search.
    apply (with_client_footprint w _ s). unfold PondClient.search.
    one_request. intros result.
    apply (silent_listing w result
             (fun n => lit "[dim]Found " ++ of_Z n ++ lit " memories:[/dim]"
                       ++ [newline])).
  - rewrite Nat.add_1_r. unfold Cli.recent.
    apply (with_client_footprint w _ s). unfold PondClient.recent.
    one_request. intros result.
    apply (silent_listing w result
             (fun n => lit "[dim]Recent " ++ of_Z n ++ lit " memories (last "
                       ++ Py.format w _ ++ lit "h):[/dim]" ++ [newline])).
  - rewrite Nat.add_1_r. unfold Cli.init.
    apply (with_client_footprint w _ s). unfold PondClient.init.
    one_request. intros result.
    apply silent_bind; [apply silent_lift|]. intros output.
    apply silent_if; apply silent_rprint.
  - rewrite Nat.add_1_r. unfold Cli.health.
    apply (with_client_footprint w _ s). unfold PondClient.health.
    intros; eexists; apply sends_try_except;
      [ apply sends_bind; [apply sends_get_no_auth|]
      | intros; apply silent_report ].
    intros result.
    repeat (apply silent_bind; [apply silent_lift|]; intros ?).
    apply silent_if; auto with footprint.
Qed.

(** ** One invocation *)

(** C6 (as amended).  An invocation instantiates the client at most once and
    makes at most one network call: it instantiates the client exactly once,
    except that [store] without content stops before [get_client] and
    instantiates none. *)
Theorem invocation_footprint (w : world) (c : Cli.command) :
  constructed (snd (Cli.run w c)) = (if content_given w c then 1 else 0)%nat /\
  (List.length (network (snd (Cli.run w c))) <= 1)%nat.
Proof.
  unfold Cli.run. destruct (app_footprint w c initial) as [Hc Hn].
  split; [exact Hc|].
  destruct Hn as [-> | [rq ->]]; simpl; lia.
Qed.

(** [store] with nothing on standard input instantiates no client. *)
Lemma store_without_content_builds_no_client :
  constructed (snd (Cli.run (pond_world false [] (Failed [])) (Cli.Store None None)))
  = 0%nat.
Proof. reflexivity. Qed.

(** ** The store request *)

Lemma store_sends (w : world) (self : PondClient.t) (content : str)
    (tags : option (list str)) :
  sends
    (post_request self (lit "store")
       (JDict match tags with
              | Some (t :: ts) =>
                  [(lit "content", JStr content);
                   (lit "tags", JList (map JStr (t :: ts)))]
              | _ => [(lit "content", JStr content)]
              end))
    (PondClient.store w self content tags).
Proof.
  unfold PondClient.store.
  destruct tags as [[|t ts]|]; apply sends_post.
Qed.

(** C3.  For every content, [client.store] with the tag list the command
    derives from ["a, b"] posts a body whose tags are exactly ["a"] and
    ["b"]; with no tags, or with an empty tag list, it posts a body that has
    the content and no tags field. *)
Theorem store_request_body
    (w : world) (self : PondClient.t) (content : str) (s : state) :
  let sent tags := network (snd (PondClient.store w self content tags s)) in
  let request body := post_request self (lit "store") (JDict body) in
  Cli.tag_list (Some (lit "a, b")) = Some [lit "a"; lit "b"] /\
  sent (Cli.tag_list (Some (lit "a, b")))
  = network s ++ [request [(lit "content", JStr content);
                           (lit "tags", JList [JStr (lit "a"); JStr (lit "b")])]] /\
  Cli.tag_list None = None /\
  sent None = network s ++ [request [(lit "content", JStr content)]] /\
  sent (Some []) = network s ++ [request [(lit "content", JStr content)]] /\
  Py.lookup [(lit "content", JStr content)] (lit "tags") = None.
Proof.
  intros sent request. unfold sent, request.
  assert (E : Cli.tag_list (Some (lit "a, b")) = Some [lit "a"; lit "b"])
    by reflexivity.
  rewrite E. repeat split.
  - apply (store_sends w self content (Some [lit "a"; lit "b"])).
  - apply (store_sends w self content None).
  - apply (store_sends w self content (Some [])).
Qed.

Lemma store_from_stdin (w : world) (tags : option str) (s : state) :
  Cli.store w None tags s
  = Cli.store w (Some (strip (stdin_read w))) tags
      (if stdin_isatty w
       then printed s [JStr (lit "[yellow]Enter memory content (Ctrl+D to finish):[/yellow]")]
       else s).
Proof.
  unfold Cli.store, bind, ret, rprint. destruct (stdin_isatty w); reflexivity.
Qed.




(** ** Store without content *)

(** C4.  With no positional content and a standard input that holds only
    whitespace (or nothing), [store] prints that no content was provided and
    exits with status 1; no client was instantiated and nothing was sent. *)
Theorem store_rejects_blank_input (w : world) (tags : option str) :
  forallb isspace (stdin_read w) = true ->
  Cli.run w (Cli.Store None tags)
  = (inl (Exit 1),
     {| console :=
          (if stdin_isatty w
           then [[JStr (lit "[yellow]Enter memory content (Ctrl+D to finish):[/yellow]")]]
           else [])
          ++ [[JStr (lit "[red]Error:[/red] No content provided")]];
        network := [];
        constructed := 0 |}).
Proof.
  intros Hblank. unfold Cli.run, Cli.app, Cli.store.
  rewrite (strip_whitespace _ Hblank).
  destruct (stdin_isatty w); reflexivity.
Qed.

Lemma store_rejects_blank_input_witness :
  Cli.run (pond_world false (lit "  ") (Failed [])) (Cli.Store None None)
  = (inl (Exit 1),
     {| console := [[JStr (lit "[red]Error:[/red] No content provided")]];
        network := [];
        constructed := 0 |}).
Proof.
  apply (@store_rejects_blank_input (pond_world false (lit "  ") (Failed [])) None).
  reflexivity.
Defined.

(** ** Headers *)

(** C5.  The request of every authenticated operation carries the two
    headers of [_headers]: the JSON content type and the client's API key
    under [X-API-Key].  The request of the health operation is made without
    a headers argument. *)
Theorem request_headers
    (w : world) (self : PondClient.t) (s : state)
    (content query : str) (tags : option (list str)) (hours : json) (limit : Z) :
  let auth := Some [(lit "Content-Type", lit "application/json");
                    (lit "X-API-Key", PondClient.api_key self)] in
  let carries {A} (m : M A) (h : option (list (str * str))) :=
    exists rq, network (snd (m s)) = network s ++ [rq] /\ headers rq = h in
  carries (PondClient.store w self content tags) auth /\
  carries (PondClient.search w self query limit) auth /\
  carries (PondClient.recent w self hours limit) auth /\
  carries (PondClient.init w self) auth /\
  carries (PondClient.health w self) None.
Proof.
  intros auth carries. unfold carries.
  repeat split; eexists; (split; [|shelve]).
  - apply (store_sends w self content tags).
  - apply (sends_post w self).
  - apply (sends_post w self).
  - apply (sends_post w self).
  - apply (sends_get_no_auth w self).
  Unshelve. all: reflexivity.
Qed.

(** ** init *)




(** ** health *)




(** ** Rendering a memory *)

Lemma firstn_map {A B} (f : A -> B) (n : nat) (l : list A) :
  firstn n (map f l) = map f (firstn n l).
Proof.
  revert l. induction n as [|n IH]; intros [|x l]; simpl; try reflexivity.
  rewrite IH. reflexivity.
Qed.

(** C9.  For a memory whose content and creation time are strings and whose
    tags are a list of strings (each field possibly absent), [format_memory]
    gives: the header with the first 10 characters of [created_at]; on the
    next line the whole content; and, when there are tags, a last line with
    the first 5 of them, each after its [#] marker, joined by a comma and a
    space.  Without tags there is no third line. *)
Theorem format_memory_shape
    (w : world) (mem : list (str * json)) (index : option Z)
    (content created_at : str) (tags : list str) :
  Py.get (JDict mem) (lit "content") (JStr []) = inr (JStr content) ->
  Py.get (JDict mem) (lit "created_at") (JStr []) = inr (JStr created_at) ->
  Py.get (JDict mem) (lit "tags") (JList []) = inr (JList (map JStr tags)) ->
  Cli.format_memory w (JDict mem) index
  = inr ((match index with
          | Some i => lit "[bold cyan]#" ++ of_Z i ++ lit "[/bold cyan] [dim]("
                      ++ firstn 10 created_at ++ lit ")[/dim]"
          | None => lit "[dim](" ++ firstn 10 created_at ++ lit ")[/dim]"
          end)
         ++ [newline] ++ content
         ++ match tags with
            | [] => []
            | _ :: _ =>
                [newline]
                ++ Str.join (lit ", ")
                     (map (fun t => lit "[dim]#" ++ t ++ lit "[/dim]")
                        (firstn 5 tags))
            end).
Proof.
  intros Hcontent Hcreated Htags. unfold Cli.format_memory.
  rewrite Hcontent, Hcreated, Htags. cbn [Py.slice_to Py.format].
  destruct tags as [|t tags].
  - cbn [map Py.truthy]. rewrite app_nil_r. destruct index; reflexivity.
  - cbn [map Py.truthy]. rewrite <- (map_cons JStr t tags).
    unfold Py.slice_to. rewrite firstn_map. cbn [Py.iter].
    rewrite map_map. unfold Cli.format_tag. cbn [Py.format].
    destruct index; reflexivity.
Qed.

(** The creation time ["2025-01-15T10:30:00Z"] is shown as ["2025-01-15"],
    and of six tags the first five are shown. *)
Lemma format_memory_shape_witness :
  Cli.format_memory (pond_world false [] (Failed [])) (JDict sample_memory) (Some 1)
  = inr (lit "[bold cyan]#1[/bold cyan] [dim](2025-01-15)[/dim]"
         ++ [newline] ++ lit "remember the milk" ++ [newline]
         ++ lit "[dim]#a[/dim], [dim]#b[/dim], [dim]#c[/dim], [dim]#d[/dim], [dim]#e[/dim]").
Proof.
  apply (@format_memory_shape (pond_world false [] (Failed [])) sample_memory
           (Some 1) (lit "remember the milk") (lit "2025-01-15T10:30:00Z")
           (map lit ["a"; "b"; "c"; "d"; "e"; "f"]%string));
    reflexivity.
Defined.

(** ** Whole runs *)

Example search_without_results :
  Cli.run (pond_world false []
             (Responded (ok_response (JDict [(lit "memories", JList [])]))))
    (Cli.Search (lit "x") 10)
  = (inr tt,
     {| console := [[JStr (lit "[yellow]No memories found[/yellow]")]];
        network := [post_request pond_client (lit "search")
                      (JDict [(lit "query", JStr (lit "x")); (lit "limit", JInt 10)])];
        constructed := 1 |}).
Proof. reflexivity. Qed.

Example search_with_one_result :
  console
    (snd (Cli.run (pond_world false []
                     (Responded (ok_response
                                   (JDict [(lit "memories", JList [JDict sample_memory])]))))
            (Cli.Search (lit "milk") 10)))
  = [ [JStr (lit "[dim]Found 1 memories:[/dim]" ++ [newline])];
      [JStr (lit "[bold cyan]#1[/bold cyan] [dim](2025-01-15)[/dim]"
             ++ [newline] ++ lit "remember the milk" ++ [newline]
             ++ lit "[dim]#a[/dim], [dim]#b[/dim], [dim]#c[/dim], [dim]#d[/dim], [dim]#e[/dim]")];
      [] ].
Proof. reflexivity. Qed.

Example store_succeeds :
  Cli.run (pond_world false (lit " hello ") (Responded (ok_response (JDict []))))
    (Cli.Store None (Some (lit "a, b")))
  = (inr tt,
     {| console := [[JStr (lit "[green]" ++ [10003%N] ++ lit " Memory stored[/green]")]];
        network := [post_request pond_client (lit "store")
                      (JDict [(lit "content", JStr (lit "hello"));
                              (lit "tags", JList [JStr (lit "a"); JStr (lit "b")])])];
        constructed := 1 |}).
Proof. reflexivity. Qed.

Example unconfigured_run :
  Cli.run (sample_world None None false [] (Failed [])) Cli.Health
  = (inl (Exit 1),
     {| console := [[JStr (lit "[red]Error:[/red] POND_BASE_URL not set. Set it in your environment or pass base_url.")]];
        network := [];
        constructed := 1 |}).
Proof. reflexivity. Qed.

Example response_that_is_a_list :
  console
    (snd (Cli.run (pond_world false [] (Responded (ok_response (JList []))))
            Cli.Init))
  = [[JStr (lit "[red]Error initializing:[/red] 'list' object has no attribute 'get'")]].
Proof. reflexivity. Qed.

(** * Further properties of the client and the commands *)

(** ** The request helpers *)

Lemma raise_for_status_run (r : response) (s : state) :
  raise_for_status r s
  = (if (400 <=? status_code r) && (status_code r <? 600)
     then inl (http_error r) else inr tt, s).
Proof.
  destruct ((400 <=? status_code r) && (status_code r <? 600)) eqn:E.
  - apply raise_for_status_error.
    apply andb_true_iff in E. rewrite Z.leb_le, Z.ltb_lt in E. exact E.
  - apply raise_for_status_pass.
    apply andb_false_iff in E. rewrite Z.leb_gt, Z.ltb_ge in E. lia.
Qed.

Lemma send_then_decode (w : world) (rq : request) (s : state) :
  (response <- send w rq ;;
   raise_for_status response ;;
   response_json response) s
  = (call_result (server w (network s) rq), requested s rq).
Proof.
  unfold bind, send, call_result.
  destruct (server w (network s) rq) as [m | r]; [reflexivity|].
  rewrite raise_for_status_run.
  destruct ((400 <=? status_code r) && (status_code r <? 600));
    [reflexivity|].
  unfold response_json. destruct (body r); reflexivity.
Qed.

Lemma client_call_run (w : world) (self : PondClient.t) (c : Cli.command)
    (s : state) :
  client_call w self c s
  = (call_result (server w (network s) (call_request w self c)),
     requested s (call_request w self c)).
Proof.
  destruct c as [content tags | query limit | hours limit | | ];
    unfold client_call, call_request, body_of; cbn [authenticated endpoint_of].
  - unfold PondClient.store, Cli.tag_list.
    destruct tags as [[|t0 tags]|]; try apply send_then_decode.
    destruct (split_cons comma (t0 :: tags)) as (p & ps & E).
    rewrite E. apply send_then_decode.
  - apply send_then_decode.
  - apply send_then_decode.
  - apply send_then_decode.
  - apply send_then_decode.
Qed.

(** ** The shape of a run *)

(** With a configured environment, and content for [store], a run is the
    client call of the command followed by silent rendering, under the
    command's handler. *)
Lemma run_shape (w : world) (self : PondClient.t) (c : Cli.command) :
  configured w self ->
  content_given w c = true ->
  exists k : json -> M unit,
    (forall v, silent (k v)) /\
    Cli.run w c
    = try_except (bind (client_call w self c) k) (report c)
        (instantiated (prompted w c)).
Proof.
  intros Hcfg Hcontent.
  destruct c as [content tags | query limit | hours limit | | ];
    unfold Cli.run, Cli.app.
  - destruct content as [[|c0 text]|]; try discriminate Hcontent.
    + unfold Cli.store. unfold bind at 1. unfold ret at 1. unfold bind at 1.
      rewrite (get_client_ok _ Hcfg).
      eexists. split; [|reflexivity].
      intros v. apply silent_rprint.
    + rewrite store_from_stdin. unfold client_call, store_content.
      simpl in Hcontent.
      destruct (strip (stdin_read w)) as [|c0 text]; try discriminate Hcontent.
      unfold Cli.store. unfold bind at 1. unfold ret at 1. unfold bind at 1.
      rewrite (get_client_ok _ Hcfg).
      eexists. split; [|reflexivity].
      intros v. apply silent_rprint.
  - unfold Cli.search. unfold bind at 1. rewrite (get_client_ok _ Hcfg).
    eexists. split; [|reflexivity].
    intros result.
    apply (silent_listing w result
             (fun n => lit "[dim]Found " ++ of_Z n ++ lit " memories:[/dim]"
                       ++ [newline])).
  - unfold Cli.recent. unfold bind at 1. rewrite (get_client_ok _ Hcfg).
    eexists. split; [|reflexivity].
    intros result.
    apply (silent_listing w result
             (fun n => lit "[dim]Recent " ++ of_Z n ++ lit " memories (last "
                       ++ Py.format w (JFloat hours) ++ lit "h):[/dim]"
                       ++ [newline])).
  - unfold Cli.init. unfold bind at 1. rewrite (get_client_ok _ Hcfg).
    eexists. split; [|reflexivity].
    intros result.
    apply silent_bind; [apply silent_lift|]. intros output.
    apply silent_if; apply silent_rprint.
  - unfold Cli.health. unfold bind at 1. rewrite (get_client_ok _ Hcfg).
    eexists. split; [|reflexivity].
    intros result.
    repeat (apply silent_bind; [apply silent_lift|]; intros ?).
    apply silent_if; auto with footprint.
Qed.

Lemma prompted_network (w : world) (c : Cli.command) :
  network (prompted w c) = [].
Proof.
  destruct c as [[?|] ?| | | |]; simpl; try reflexivity.
  destruct (stdin_isatty w); reflexivity.
Qed.

(** When the client call raises, the run reports it. *)
Lemma run_reports (w : world) (self : PondClient.t) (c : Cli.command) (e : exc) :
  configured w self ->
  content_given w c = true ->
  call_result (server w [] (call_request w self c)) = inl e ->
  Cli.run w c
  = (inl (Exit 1),
     printed (requested (instantiated (prompted w c)) (call_request w self c))
       [JStr (error_label c ++ exc_str e)]).
Proof.
  intros Hcfg Hcontent He.
  destruct (run_shape c Hcfg Hcontent) as (k & _ & ->).
  unfold try_except, bind. rewrite client_call_run.
  cbn [instantiated network]. rewrite prompted_network, He. reflexivity.
Qed.

(** ** The request of a run *)

(** X5.  With a configured environment (and content for [store]) every
    command makes exactly one request, whatever the service does with it:
    a POST to [{base_url}/api/v1/{store,search,recent,init}] with the JSON
    body of the command and the authenticated headers, or a GET to
    [{base_url}/api/v1/health] with no body and no headers; always with a
    timeout of 60 seconds and no query parameters. *)
Theorem run_makes_one_request
    (w : world) (self : PondClient.t) (c : Cli.command) :
  configured w self ->
  content_given w c = true ->
  network (snd (Cli.run w c)) = [call_request w self c].
Proof.
  intros Hcfg Hcontent.
  destruct (run_shape c Hcfg Hcontent) as (k & Hk & ->).
  assert (Hsends : sends (call_request w self c)
                     (try_except (bind (client_call w self c) k) (report c))).
  { apply sends_try_except.
    - apply sends_bind; [|exact Hk].
      intros s. rewrite client_call_run. split; reflexivity.
    - intros e. apply silent_report. }
  destruct (Hsends (instantiated (prompted w c))) as [Hn _].
  rewrite Hn. cbn [instantiated network]. rewrite prompted_network. reflexivity.
Qed.

Lemma run_makes_one_request_witness :
  network (snd (Cli.run (pond_world true (lit "note") (Failed []))
                  (Cli.Store None None)))
  = [mkRequest POST (lit "http://pond/api/v1/store")
       (Some (JDict [(lit "content", JStr (lit "note"))])) None
       (Some [(lit "Content-Type", lit "application/json");
              (lit "X-API-Key", lit "secret")]) 60]
  /\
  network (snd (Cli.run (pond_world false [] (Responded unavailable))
                  (Cli.Recent (S754_zero false) 3)))
  = [mkRequest POST (lit "http://pond/api/v1/recent")
       (Some (JDict [(lit "hours", JFloat (S754_zero false)); (lit "limit", JInt 3)]))
       None
       (Some [(lit "Content-Type", lit "application/json");
              (lit "X-API-Key", lit "secret")]) 60].
Proof.
  split.
  - apply (@run_makes_one_request (pond_world true (lit "note") (Failed []))
             pond_client (Cli.Store None None)).
    + apply pond_world_configured.
    + reflexivity.
  - apply (@run_makes_one_request (pond_world false [] (Responded unavailable))
             pond_client (Cli.Recent (S754_zero false) 3)).
    + apply pond_world_configured.
    + reflexivity.
Defined.

(** ** Failures of the client call *)



(** X7.  When the service answers with a status that is not an error but a
    body that is not JSON, every command prints the decode error after its
    own label and exits with status 1. *)
Theorem undecodable_body_reported
    (w : world) (self : PondClient.t) (c : Cli.command) (r : response)
    (msg : str) :
  configured w self ->
  content_given w c = true ->
  answers w r ->
  ~ 400 <= status_code r < 600 ->
  body r = inl msg ->
  fst (Cli.run w c) = inl (Exit 1) /\
  console (snd (Cli.run w c))
  = console (prompted w c) ++ [[JStr (error_label c ++ msg)]] /\
  network (snd (Cli.run w c)) = [call_request w self c].
Proof.
  intros Hcfg Hcontent Hans Hst Hbody.
  rewrite (@run_reports w self c (JSONDecodeError msg) Hcfg Hcontent).
  - simpl. rewrite prompted_network. auto.
  - rewrite Hans. unfold call_result.
    assert (E : (400 <=? status_code r) && (status_code r <? 600) = false).
    { apply andb_false_iff. rewrite Z.leb_gt, Z.ltb_ge. lia. }
    rewrite E, Hbody. reflexivity.
Qed.

Lemma undecodable_body_reported_witness :
  console
    (snd (Cli.run
            (pond_world false []
               (Responded {| status_code := 200; reason := lit "OK";
                             resp_url := lit "http://pond/api/v1/search";
                             body := inl (lit "Expecting value") |}))
            (Cli.Search (lit "x") 10)))
  = [[JStr (lit "[red]Error searching:[/red] Expecting value")]].
Proof.
  destruct (@undecodable_body_reported
              (pond_world false []
                 (Responded {| status_code := 200; reason := lit "OK";
                               resp_url := lit "http://pond/api/v1/search";
                               body := inl (lit "Expecting value") |}))
              pond_client (Cli.Search (lit "x") 10)
              {| status_code := 200; reason := lit "OK";
                 resp_url := lit "http://pond/api/v1/search";
                 body := inl (lit "Expecting value") |}
              (lit "Expecting value"))
    as (_ & H & _).
  - apply pond_world_configured.
  - reflexivity.
  - intros history rq. reflexivity.
  - simpl. lia.
  - reflexivity.
  - exact H.
Defined.



(** ** A missing configuration *)

Lemma get_client_unconfigured (w : world) (s : state) :
  rstrip [slash] (in_effect None (environ w POND_BASE_URL)) = []
  \/ in_effect None (environ w POND_API_KEY) = [] ->
  Cli.get_client w s
  = (inl (Exit 1),
     printed (instantiated s)
       [JStr (lit "[red]Error:[/red] "
              ++ match rstrip [slash] (in_effect None (environ w POND_BASE_URL)) with
                 | [] => BASE_URL_NOT_SET
                 | _ :: _ => API_KEY_NOT_SET
                 end)]).
Proof.
  intros H.
  unfold Cli.get_client, PondClient.__init__, PondClient.called. monad.
  rewrite !or_else_in_effect. fold POND_BASE_URL POND_API_KEY.
  destruct (rstrip [slash] (in_effect None (environ w POND_BASE_URL)));
    [reflexivity|].
  destruct H as [H | H]; [discriminate|]. rewrite H. reflexivity.
Qed.

(** X1.  When the environment gives no usable base URL or no API key, every
    command that gets as far as the client (all but [store] without
    content) prints the configuration error, naming the base URL first when
    both are missing, and exits with status 1 without making a request. *)
Theorem configuration_error_reported (w : world) (c : Cli.command) :
  content_given w c = true ->
  rstrip [slash] (in_effect None (environ w POND_BASE_URL)) = []
  \/ in_effect None (environ w POND_API_KEY) = [] ->
  fst (Cli.run w c) = inl (Exit 1) /\
  network (snd (Cli.run w c)) = [] /\
  console (snd (Cli.run w c))
  = console (prompted w c)
    ++ [[JStr (lit "[red]Error:[/red] "
               ++ match rstrip [slash] (in_effect None (environ w POND_BASE_URL)) with
                  | [] => BASE_URL_NOT_SET
                  | _ :: _ => API_KEY_NOT_SET
                  end)]].
Proof.
  intros Hcontent Hmissing.
  assert (Hrun : Cli.run w c
                 = (inl (Exit 1),
                    printed (instantiated (prompted w c))
                      [JStr (lit "[red]Error:[/red] "
                             ++ match rstrip [slash]
                                        (in_effect None (environ w POND_BASE_URL)) with
                                | [] => BASE_URL_NOT_SET
                                | _ :: _ => API_KEY_NOT_SET
                                end)])).
  { destruct c as [content tags | query limit | hours limit | | ];
      unfold Cli.run, Cli.app.
    - destruct content as [[|c0 text]|]; try discriminate Hcontent.
      + unfold Cli.store. unfold bind at 1. unfold ret at 1. unfold bind at 1.
        rewrite (get_client_unconfigured _ _ Hmissing). reflexivity.
      + rewrite store_from_stdin. simpl in Hcontent.
        destruct (strip (stdin_read w)) as [|c0 text]; try discriminate Hcontent.
        unfold Cli.store. unfold bind at 1. unfold ret at 1. unfold bind at 1.
        rewrite (get_client_unconfigured _ _ Hmissing). reflexivity.
    - unfold Cli.search. unfold bind at 1.
      rewrite (get_client_unconfigured _ _ Hmissing). reflexivity.
    - unfold Cli.recent. unfold bind at 1.
      rewrite (get_client_unconfigured _ _ Hmissing). reflexivity.
    - unfold Cli.init. unfold bind at 1.
      rewrite (get_client_unconfigured _ _ Hmissing). reflexivity.
    - unfold Cli.health. unfold bind at 1.
      rewrite (get_client_unconfigured _ _ Hmissing). reflexivity. }
  rewrite Hrun. simpl. rewrite prompted_network. auto.
Qed.

Lemma configuration_error_reported_witness :
  let run := Cli.run (sample_world (Some (lit "http://pond")) None true (lit "x")
                        (Failed []))
               (Cli.Store None None) in
  fst run = inl (Exit 1) /\
  network (snd run) = [] /\
  console (snd run)
  = [[JStr prompt];
     [JStr (lit "[red]Error:[/red] POND_API_KEY not set. Set it in your environment or pass api_key.")]].
Proof.
  apply (@configuration_error_reported
           (sample_world (Some (lit "http://pond")) None true (lit "x") (Failed []))
           (Cli.Store None None)).
  - reflexivity.
  - right. reflexivity.
Defined.

(** ** More on strings *)

Lemma dropwhile_head (p : char -> bool) (s : str) (c : char) (r : str) :
  dropwhile p s = c :: r -> p c = false.
Proof.
  induction s as [|d s IH]; simpl; [discriminate|].
  destruct (p d) eqn:E; [exact IH|].
  intros H. inversion H. subst. exact E.
Qed.

Lemma dropwhile_fixed (p : char -> bool) (s : str) :
  match s with [] => True | c :: _ => p c = false end -> dropwhile p s = s.
Proof.
  destruct s as [|c s]; simpl; [reflexivity|]. intros ->. reflexivity.
Qed.

Lemma dropwhile_idem (p : char -> bool) (s : str) :
  dropwhile p (dropwhile p s) = dropwhile p s.
Proof.
  apply dropwhile_fixed.
  destruct (dropwhile p s) as [|c r] eqn:E; [exact I|].
  exact (dropwhile_head p s E).
Qed.

Lemma dropwhile_split (p : char -> bool) (s : str) :
  exists x, s = x ++ dropwhile p s /\ forallb p x = true.
Proof.
  induction s as [|c s (x & Hx & Hp)]; simpl.
  - exists []. auto.
  - destruct (p c) eqn:E.
    + exists (c :: x). simpl. rewrite E, Hp. split; [congruence | reflexivity].
    + exists []. auto.
Qed.

Lemma dropwhile_incl (p : char -> bool) (s : str) (c : char) :
  In c (dropwhile p s) -> In c s.
Proof.
  destruct (dropwhile_split p s) as (x & Hx & _).
  intros H. rewrite Hx. apply in_or_app. auto.
Qed.

(** What [rstrip_with] removes is a run of characters of the class, at the
    end. *)
Lemma rstrip_with_split (p : char -> bool) (s : str) :
  exists y, s = rstrip_with p s ++ y /\ forallb p y = true.
Proof.
  unfold rstrip_with.
  destruct (dropwhile_split p (rev s)) as (x & Hx & Hp).
  exists (rev x). split.
  - rewrite <- rev_app_distr, <- Hx, rev_involutive. reflexivity.
  - rewrite forallb_forall in *. intros c Hc. apply Hp, in_rev, Hc.
Qed.

Lemma rstrip_with_last (p : char -> bool) (s pre : str) (c : char) :
  rstrip_with p s = pre ++ [c] -> p c = false.
Proof.
  unfold rstrip_with. intros H.
  apply (f_equal (@rev char)) in H.
  rewrite rev_involutive, rev_app_distr in H. simpl in H.
  exact (dropwhile_head p (rev s) H).
Qed.

Lemma all_equal_repeat (a : char) (l : str) :
  (forall c, In c l -> c = a) -> l = repeat a (List.length l).
Proof.
  induction l as [|c l IH]; simpl; intros H; [reflexivity|].
  rewrite <- IH by auto. rewrite (H c) by auto. reflexivity.
Qed.

Lemma rstrip_slash_split (s : str) :
  exists n, s = rstrip [slash] s ++ repeat slash n.
Proof.
  unfold rstrip.
  destruct (rstrip_with_split (fun c => existsb (N.eqb c) [slash]) s)
    as (y & Hy & Hp).
  exists (List.length y). rewrite <- (all_equal_repeat (a := slash)); [exact Hy|].
  rewrite forallb_forall in Hp. intros c Hc. specialize (Hp c Hc).
  simpl in Hp. rewrite orb_false_r in Hp. apply N.eqb_eq, Hp.
Qed.

Lemma strip_incl (s : str) (c : char) : In c (strip s) -> In c s.
Proof.
  unfold strip, rstrip_with, lstrip_with. intros H.
  apply in_rev, dropwhile_incl, in_rev in H.
  exact (dropwhile_incl _ _ _ H).
Qed.

Lemma strip_idem (s : str) : strip (strip s) = strip s.
Proof.
  unfold strip, lstrip_with.
  set (u := dropwhile isspace s).
  assert (Hlead : dropwhile isspace (rstrip_with isspace u) = rstrip_with isspace u).
  { apply dropwhile_fixed.
    destruct (rstrip_with_split isspace u) as (y & Hy & _).
    destruct (rstrip_with isspace u) as [|c t]; [exact I|].
    apply (dropwhile_head isspace s (r := t ++ y)).
    fold u. rewrite Hy at 1. reflexivity. }
  rewrite Hlead. unfold rstrip_with at 1.
  unfold rstrip_with at 1. rewrite rev_involutive, dropwhile_idem.
  reflexivity.
Qed.

Lemma split_no_separator (sep : char) (s : str) (p : str) :
  In p (split sep s) -> ~ In sep p.
Proof.
  revert p. induction s as [|c s IH]; simpl; intros p Hp.
  - destruct Hp as [<- | []]. auto.
  - destruct (N.eqb_spec c sep) as [-> | Hne].
    + destruct Hp as [<- | Hp]; auto.
    + destruct (split sep s) as [|x xs] eqn:E.
      * destruct Hp as [<- | []]. intros [H | []]. congruence.
      * destruct Hp as [<- | Hp].
        -- intros [H | H]; [congruence|]. apply (IH x); simpl; auto.
        -- apply IH. simpl. auto.
Qed.

Lemma split_length (sep : char) (s : str) :
  List.length (split sep s) = S (count_occ N.eq_dec s sep).
Proof.
  induction s as [|c s IH]; simpl; [reflexivity|].
  destruct (N.eqb_spec c sep) as [-> | Hne].
  - destruct (N.eq_dec sep sep); [|congruence]. simpl. rewrite IH. reflexivity.
  - destruct (N.eq_dec c sep); [congruence|].
    destruct (split sep s); simpl in *; [discriminate | exact IH].
Qed.

(** Joining the pieces with the separator gives the string back. *)
Lemma join_split (sep : char) (s : str) :
  Str.join [sep] (split sep s) = s.
Proof.
  induction s as [|c s IH]; simpl; [reflexivity|].
  destruct (N.eqb_spec c sep) as [-> | Hne].
  - destruct (split sep s) as [|x xs] eqn:E.
    + destruct (split_cons sep s) as (? & ? & ?). congruence.
    + simpl in *. rewrite IH. reflexivity.
  - destruct (split sep s) as [|x xs] eqn:E.
    + destruct (split_cons sep s) as (? & ? & ?). congruence.
    + destruct xs; simpl in *; rewrite <- IH; reflexivity.
Qed.

(** ** The constructor *)

(** X2.  Explicit constructor arguments take precedence: when both are given
    and not empty the environment plays no part in the result; an explicit
    argument that is the empty string counts as absent. *)
Theorem explicit_arguments_override_environment
    (w w' : world) (base_url api_key : str) (arg : option str) (s : state) :
  base_url <> [] ->
  api_key <> [] ->
  PondClient.__init__ w (Some base_url) (Some api_key) s
  = PondClient.__init__ w' (Some base_url) (Some api_key) s
  /\ PondClient.__init__ w (Some []) arg s = PondClient.__init__ w None arg s
  /\ PondClient.__init__ w arg (Some []) s = PondClient.__init__ w arg None s.
Proof.
  intros Hb Hk.
  destruct base_url as [|b0 base_url]; [congruence|].
  destruct api_key as [|k0 api_key]; [congruence|].
  repeat split.
Qed.

Lemma explicit_arguments_override_environment_witness :
  fst (PondClient.__init__
         (sample_world (Some (lit "http://other")) (Some (lit "other")) false []
            (Failed []))
         (Some (lit "http://pond/")) (Some (lit "secret")) initial)
  = inr pond_client.
Proof.
  rewrite (proj1 (@explicit_arguments_override_environment
                    (sample_world (Some (lit "http://other")) (Some (lit "other"))
                       false [] (Failed []))
                    (sample_world None None false [] (Failed []))
                    (lit "http://pond/") (lit "secret") None initial
                    ltac:(discriminate) ltac:(discriminate))).
  reflexivity.
Defined.

(** X3.  A client that was constructed keeps these facts: its base URL is
    the base URL in effect without its trailing slashes (so it is not empty
    and does not end with a slash), and its API key is the key in effect,
    not empty. *)
Theorem constructed_client_invariant
    (w : world) (base_url api_key : option str) (s : state)
    (self : PondClient.t) :
  fst (PondClient.__init__ w base_url api_key s) = inr self ->
  PondClient.base_url self <> [] /\
  (forall pre, PondClient.base_url self <> pre ++ [slash]) /\
  (exists n, in_effect base_url (environ w POND_BASE_URL)
             = PondClient.base_url self ++ repeat slash n) /\
  PondClient.api_key self = in_effect api_key (environ w POND_API_KEY) /\
  PondClient.api_key self <> [].
Proof.
  unfold PondClient.__init__, PondClient.called. monad.
  rewrite !or_else_in_effect. fold POND_BASE_URL POND_API_KEY.
  set (base := in_effect base_url (environ w POND_BASE_URL)).
  set (key := in_effect api_key (environ w POND_API_KEY)).
  destruct (rstrip [slash] base) as [|c r] eqn:Eb; [discriminate|].
  destruct key as [|k ks] eqn:Ek; [discriminate|].
  simpl. intros H. inversion H. subst self. simpl.
  repeat split.
  - discriminate.
  - intros pre Hpre. rewrite <- Eb in Hpre. unfold rstrip in Hpre.
    apply rstrip_with_last in Hpre. simpl in Hpre.
    discriminate.
  - destruct (rstrip_slash_split base) as [n Hn].
    exists n. rewrite Eb in Hn. exact Hn.
  - discriminate.
Qed.

Lemma constructed_client_invariant_witness :
  PondClient.base_url pond_client <> [] /\
  (forall pre, PondClient.base_url pond_client <> pre ++ [slash]) /\
  (exists n, in_effect None (environ (pond_world false [] (Failed [])) POND_BASE_URL)
             = PondClient.base_url pond_client ++ repeat slash n) /\
  PondClient.api_key pond_client
  = in_effect None (environ (pond_world false [] (Failed [])) POND_API_KEY) /\
  PondClient.api_key pond_client <> [].
Proof.
  apply (@constructed_client_invariant (pond_world false [] (Failed []))
           None None initial pond_client).
  reflexivity.
Defined.

(** ** The tags of store *)

(** X4.  The tags the [store] command derives from a tags string contain no
    comma and have no whitespace at either end; there is one more of them
    than there are commas in the string. *)
Theorem tag_list_tags_are_clean (tags : str) (ts : list str) :
  Cli.tag_list (Some tags) = Some ts ->
  Forall (fun t => ~ In comma t /\ strip t = t) ts /\
  List.length ts = S (count_occ N.eq_dec tags comma).
Proof.
  unfold Cli.tag_list. destruct tags as [|t0 tags]; [discriminate|].
  intros H. inversion H. subst ts. clear H. split.
  - apply Forall_forall. intros t Ht. apply in_map_iff in Ht.
    destruct Ht as (p & <- & Hp). split.
    + intros Hc. apply strip_incl in Hc.
      exact (@split_no_separator comma (t0 :: tags) p Hp Hc).
    + apply strip_idem.
  - rewrite length_map. exact (split_length comma (t0 :: tags)).
Qed.

Lemma tag_list_tags_are_clean_witness :
  Forall (fun t => ~ In comma t /\ strip t = t) [lit "x"; []; lit "y z"] /\
  List.length [lit "x"; []; lit "y z"]
  = S (count_occ N.eq_dec (lit " x ,, y z ") comma).
Proof.
  apply (@tag_list_tags_are_clean (lit " x ,, y z ") [lit "x"; []; lit "y z"]).
  reflexivity.
Defined.

(** ** A successful store *)

(** X9.  [store] does not look at what the service returns: for any
    decodable body, a mapping or not, with a status that is not an error,
    it prints the confirmation and returns (exit status 0). *)
Theorem store_ignores_response
    (w : world) (self : PondClient.t) (r : response) (v : json)
    (content tags : option str) :
  configured w self ->
  content_given w (Cli.Store content tags) = true ->
  answers w r ->
  ~ 400 <= status_code r < 600 ->
  body r = inr v ->
  fst (Cli.run w (Cli.Store content tags)) = inr tt /\
  console (snd (Cli.run w (Cli.Store content tags)))
  = console (prompted w (Cli.Store content tags))
    ++ [[JStr (lit "[green]" ++ [10003%N] ++ lit " Memory stored[/green]")]].
Proof.
  intros Hcfg Hcontent Hans Hst Hbody. unfold Cli.run, Cli.app.
  assert (Hgiven : forall c0 text s,
            Cli.store w (Some (c0 :: text)) tags s
            = (inr tt,
               printed
                 (requested (instantiated s)
                    (call_request w self (Cli.Store (Some (c0 :: text)) tags)))
                 [JStr (lit "[green]" ++ [10003%N] ++ lit " Memory stored[/green]")])).
  { intros c0 text s. unfold Cli.store.
    unfold bind at 1. unfold ret at 1. unfold bind at 1.
    rewrite (get_client_ok _ Hcfg). unfold try_except, bind.
    change (PondClient.store w self (c0 :: text) (Cli.tag_list tags))
      with (client_call w self (Cli.Store (Some (c0 :: text)) tags)).
    rewrite client_call_run, Hans. unfold call_result.
    assert (E : (400 <=? status_code r) && (status_code r <? 600) = false).
    { apply andb_false_iff. rewrite Z.leb_gt, Z.ltb_ge. lia. }
    rewrite E, Hbody. reflexivity. }
  destruct content as [[|c0 text]|]; try discriminate Hcontent.
  - rewrite Hgiven. split; reflexivity.
  - rewrite store_from_stdin. simpl in Hcontent.
    destruct (strip (stdin_read w)) as [|c0 text]; try discriminate Hcontent.
    rewrite Hgiven. simpl. destruct (stdin_isatty w); split; reflexivity.
Qed.

Lemma store_ignores_response_witness :
  let run := Cli.run (pond_world true (lit "hello")
                        (Responded (ok_response (JList [JNull]))))
               (Cli.Store None None) in
  fst run = inr tt /\
  console (snd run)
  = [[JStr prompt];
     [JStr (lit "[green]" ++ [10003%N] ++ lit " Memory stored[/green]")]].
Proof.
  apply (@store_ignores_response
           (pond_world true (lit "hello") (Responded (ok_response (JList [JNull]))))
           pond_client (ok_response (JList [JNull])) (JList [JNull]) None None).
  - apply pond_world_configured.
  - reflexivity.
  - intros history rq. reflexivity.
  - simpl. lia.
  - reflexivity.
Defined.

(** ** Listings *)




Lemma listing_body_empty (w : world) (d : list (str * json))
    (header : Z -> str) (none : str) (s : state) :
  Py.truthy (field d (lit "memories") (JList [])) = false ->
  (memories <- lift (Py.get (JDict d) (lit "memories") (JList [])) ;;
   if Py.truthy memories then
     n <- lift (Py.len memories) ;;
     rprint [JStr (header n)] ;;
     items <- lift (Py.iter memories) ;;
     Cli.print_memories w 1 items
   else rprint [JStr none]) s
  = (inr tt, printed s [JStr none]).
Proof.
  intros Hfield. unfold bind at 1. unfold lift at 1. unfold Py.get.
  fold (field d (lit "memories") (JList [])). rewrite Hfield. reflexivity.
Qed.

Section Listing.
Variable w : world.
Variable self : PondClient.t.
Variable r : response.
Variable d : list (str * json).
Hypothesis Hcfg : configured w self.
Hypothesis Hans : answers w r.
Hypothesis Hst : ~ 400 <= status_code r < 600.
Hypothesis Hbody : body r = inr (JDict d).

Lemma search_run (query : str) (limit : Z) :
  Cli.run w (Cli.Search query limit)
  = try_except
      ((fun result =>
          memories <- lift (Py.get result (lit "memories") (JList [])) ;;
          if Py.truthy memories then
            n <- lift (Py.len memories) ;;
            rprint [JStr (lit "[dim]Found " ++ of_Z n ++ lit " memories:[/dim]"
                          ++ [newline])] ;;
            items <- lift (Py.iter memories) ;;
            Cli.print_memories w 1 items
          else rprint [JStr (lit "[yellow]No memories found[/yellow]")])
         (JDict d))
      (report (Cli.Search query limit))
      (requested (instantiated initial)
         (call_request w self (Cli.Search query limit))).
Proof.
  unfold Cli.run, Cli.app, Cli.search. unfold bind at 1.
  rewrite (get_client_ok _ Hcfg). unfold try_except. unfold bind at 1.
  unfold PondClient.search.
  rewrite (post_ok Hans _ _ _ _ Hst Hbody). reflexivity.
Qed.

Lemma recent_run (hours : spec_float) (limit : Z) :
  Cli.run w (Cli.Recent hours limit)
  = try_except
      ((fun result =>
          memories <- lift (Py.get result (lit "memories") (JList [])) ;;
          if Py.truthy memories then
            n <- lift (Py.len memories) ;;
            rprint [JStr (lit "[dim]Recent " ++ of_Z n ++ lit " memories (last "
                          ++ Py.format w (JFloat hours) ++ lit "h):[/dim]"
                          ++ [newline])] ;;
            items <- lift (Py.iter memories) ;;
            Cli.print_memories w 1 items
          else rprint [JStr (lit "[yellow]No recent memories[/yellow]")])
         (JDict d))
      (report (Cli.Recent hours limit))
      (requested (instantiated initial)
         (call_request w self (Cli.Recent hours limit))).
Proof.
  unfold Cli.run, Cli.app, Cli.recent. unfold bind at 1.
  rewrite (get_client_ok _ Hcfg). unfold try_except. unfold bind at 1.
  unfold PondClient.recent.
  rewrite (post_ok Hans _ _ _ _ Hst Hbody). reflexivity.
Qed.

End Listing.

(** X10.  When the response mapping of [search] or [recent] has no
    [memories] field, or a falsy one (an empty list, [null], ...), the
    command prints its no-results message and nothing else, and returns
    (exit status 0): no header with a count of zero is shown. *)
Theorem listing_without_memories
    (w : world) (self : PondClient.t) (r : response) (d : list (str * json))
    (query : str) (hours : spec_float) (limit : Z) :
  configured w self ->
  answers w r ->
  ~ 400 <= status_code r < 600 ->
  body r = inr (JDict d) ->
  Py.truthy (field d (lit "memories") (JList [])) = false ->
  (fst (Cli.run w (Cli.Search query limit)) = inr tt /\
   console (snd (Cli.run w (Cli.Search query limit)))
   = [[JStr (lit "[yellow]No memories found[/yellow]")]]) /\
  (fst (Cli.run w (Cli.Recent hours limit)) = inr tt /\
   console (snd (Cli.run w (Cli.Recent hours limit)))
   = [[JStr (lit "[yellow]No recent memories[/yellow]")]]).
Proof.
  intros Hcfg Hans Hst Hbody Hnone. split.
  - rewrite (search_run Hcfg Hans Hst Hbody). unfold try_except.
    rewrite listing_body_empty by exact Hnone. split; reflexivity.
  - rewrite (recent_run Hcfg Hans Hst Hbody). unfold try_except.
    rewrite listing_body_empty by exact Hnone. split; reflexivity.
Qed.

Lemma listing_without_memories_witness :
  let w := pond_world false [] (Responded (ok_response (JDict []))) in
  (fst (Cli.run w (Cli.Search (lit "x") 10)) = inr tt /\
   console (snd (Cli.run w (Cli.Search (lit "x") 10)))
   = [[JStr (lit "[yellow]No memories found[/yellow]")]]) /\
  (fst (Cli.run w (Cli.Recent (S754_zero false) 10)) = inr tt /\
   console (snd (Cli.run w (Cli.Recent (S754_zero false) 10)))
   = [[JStr (lit "[yellow]No recent memories[/yellow]")]]).
Proof.
  apply (@listing_without_memories
           (pond_world false [] (Responded (ok_response (JDict []))))
           pond_client (ok_response (JDict [])) []).
  - apply pond_world_configured.
  - intros history rq. reflexivity.
  - simpl. lia.
  - reflexivity.
  - reflexivity.
Defined.





(** ** When a memory renders *)

(** X13.  [format_memory] returns a text exactly for the values described
    by [renderable]: mappings whose content (when present) is a string,
    whose [created_at] (when present) is a string or a list, and whose tags
    (when present) are falsy or a string or a list.  On everything else it
    raises. *)
Theorem format_memory_succeeds_iff
    (w : world) (mem : json) (index : option Z) :
  (exists text, Cli.format_memory w mem index = inr text)
  <-> renderable mem = true.
Proof.
  unfold Cli.format_memory, renderable.
  destruct mem as [| | | | |l|d];
    try (simpl; split; [intros [text H]; discriminate H | discriminate]).
  unfold Py.get.
  fold (field d (lit "content") (JStr []))
       (field d (lit "created_at") (JStr []))
       (field d (lit "tags") (JList [])).
  destruct (field d (lit "content") (JStr [])) as [|?|?|?|content|?|?];
    destruct (field d (lit "created_at") (JStr [])) as [|?|?|?|created|created|?];
    destruct (field d (lit "tags") (JList [])) as [|[|]|?|[| | | ]|[|? ?]|[|? ?]|[|? ?]];
    destruct index;
    cbn -[lit Str.join of_Z];
    try match goal with
        | |- context [negb (?z =? 0)] => destruct (negb (z =? 0))
        end;
    cbn -[lit Str.join of_Z];
    (split; [intros [text H]; (discriminate H || reflexivity)
            | intros H; (discriminate H || eauto)]).
Qed.

(** ** A response that is not a mapping *)

(** X14.  The commands that read the response ([search], [recent], [init],
    [health]) expect a mapping: when the body decodes to any other JSON
    value (a list, a string, a number, [null]) the failed [.get] is caught
    like any other error, printed after the command's label, and the
    process exits with status 1. *)
Theorem non_mapping_response_reported
    (w : world) (self : PondClient.t) (r : response) (v : json)
    (c : Cli.command) :
  configured w self ->
  answers w r ->
  ~ 400 <= status_code r < 600 ->
  body r = inr v ->
  (forall d, v <> JDict d) ->
  (forall content tags, c <> Cli.Store content tags) ->
  fst (Cli.run w c) = inl (Exit 1) /\
  console (snd (Cli.run w c))
  = [[JStr (error_label c ++ lit "'" ++ Py.type_name v
            ++ lit "' object has no attribute 'get'")]].
Proof.
  intros Hcfg Hans Hst Hbody Hv Hc.
  assert (Hget : forall k default,
            exists e, Py.get v k default = inl e /\
                      exc_str e = lit "'" ++ Py.type_name v
                                  ++ lit "' object has no attribute 'get'").
  { intros k default.
    destruct v; try (eexists; split; reflexivity).
    exfalso. exact (Hv _ eq_refl). }
  assert (Hrun : Cli.run w c
                 = (inl (Exit 1),
                    printed
                      (requested (instantiated initial) (call_request w self c))
                      [JStr (error_label c ++ lit "'" ++ Py.type_name v
                             ++ lit "' object has no attribute 'get'")]));
    [|rewrite Hrun; split; reflexivity].
  destruct c as [content tags | query limit | hours limit | | ];
    unfold Cli.run, Cli.app.
  - exfalso. exact (Hc _ _ eq_refl).
  - unfold Cli.search. unfold bind at 1. rewrite (get_client_ok _ Hcfg).
    unfold try_except. unfold bind at 1. unfold PondClient.search.
    rewrite (post_ok Hans _ _ _ _ Hst Hbody).
    unfold bind at 1. unfold lift at 1.
    destruct (Hget (lit "memories") (JList [])) as (e & -> & He).
    rewrite <- He. reflexivity.
  - unfold Cli.recent. unfold bind at 1. rewrite (get_client_ok _ Hcfg).
    unfold try_except. unfold bind at 1. unfold PondClient.recent.
    rewrite (post_ok Hans _ _ _ _ Hst Hbody).
    unfold bind at 1. unfold lift at 1.
    destruct (Hget (lit "memories") (JList [])) as (e & -> & He).
    rewrite <- He. reflexivity.
  - unfold Cli.init. unfold bind at 1. rewrite (get_client_ok _ Hcfg).
    unfold try_except. unfold bind at 1. unfold PondClient.init.
    rewrite (post_ok Hans _ _ _ _ Hst Hbody).
    unfold bind at 1. unfold lift at 1.
    destruct (Hget (lit "result") (JStr [])) as (e & -> & He).
    rewrite <- He. reflexivity.
  - unfold Cli.health. unfold bind at 1. rewrite (get_client_ok _ Hcfg).
    unfold try_except. unfold bind at 1. unfold PondClient.health.
    rewrite (get_no_auth_ok Hans _ _ _ Hst Hbody).
    unfold bind at 1. unfold lift at 1.
    destruct (Hget (lit "status") (JStr (lit "unknown"))) as (e & -> & He).
    rewrite <- He. reflexivity.
Qed.

Lemma non_mapping_response_reported_witness :
  let w := pond_world false [] (Responded (ok_response (JList []))) in
  fst (Cli.run w Cli.Health) = inl (Exit 1) /\
  console (snd (Cli.run w Cli.Health))
  = [[JStr (lit "[red]Error checking health:[/red] 'list' object has no attribute 'get'")]].
Proof.
  apply (@non_mapping_response_reported
           (pond_world false [] (Responded (ok_response (JList []))))
           pond_client (ok_response (JList [])) (JList []) Cli.Health).
  - apply pond_world_configured.
  - intros history rq. reflexivity.
  - simpl. lia.
  - reflexivity.
  - discriminate.
  - discriminate.
Defined.

(** ** How a run ends *)





(** ** Standard input *)

(** X16.  Standard input is read by [store] without positional content and
    by nothing else: for every other invocation the run is the same
    whatever standard input holds and whether or not it is a terminal. *)
Theorem stdin_only_read_by_store
    (w : world) (tty : bool) (input : str) (c : Cli.command) :
  (forall tags, c <> Cli.Store None tags) ->
  Cli.run (with_stdin w tty input) c = Cli.run w c.
Proof.
  intros Hc.
  destruct c as [[content|] tags | query limit | hours limit | | ];
    try reflexivity.
  exfalso. exact (Hc _ eq_refl).
Qed.

Lemma stdin_only_read_by_store_witness :
  Cli.run (with_stdin (pond_world false [] (Failed [])) true (lit "ignored"))
    (Cli.Store (Some (lit "hello")) None)
  = Cli.run (pond_world false [] (Failed [])) (Cli.Store (Some (lit "hello")) None).
Proof.
  apply (@stdin_only_read_by_store (pond_world false [] (Failed [])) true
           (lit "ignored") (Cli.Store (Some (lit "hello")) None)).
  discriminate.
Defined.

(** ** The authenticated GET helper *)

(** X17.  [_get] makes exactly one request, a GET to
    [{base_url}/api/v1/{endpoint}] with the query parameters and the
    authenticated headers, and gives back what the service decides: the
    transport failure, the HTTP error of a 4xx or 5xx answer, the decode
    error, or else the decoded body unchanged. *)
Theorem get_request_and_result
    (w : world) (self : PondClient.t) (endpoint : str) (params : option json)
    (s : state) :
  let rq := mkRequest GET
              (PondClient.base_url self ++ lit "/api/v1/" ++ endpoint)
              None params
              (Some [(lit "Content-Type", lit "application/json");
                     (lit "X-API-Key", PondClient.api_key self)])
              60 in
  PondClient._get w self endpoint params s
  = (call_result (server w (network s) rq), requested s rq).
Proof.
  apply send_then_decode.
Qed.
